(** * OCRUploader: a shallow embedding of the upload / download component

    The development follows [frontend/src/components/OCRUploader.jsx].
    The two asynchronous handlers [handleUpload] and [handleDownload] are
    embedded as programs of a small writer-and-exception monad: a run of a
    handler yields the ordered list of effects it performs (React state
    setters, the network request, DOM and URL calls) together with its
    completion.  The component state after a run is the fold of the setter
    effects over the state the run started from; the state at an [await] is
    the fold of the effects issued before it.

    What the environment answers is an input of a run: what the request
    settles to (a response or a rejection), what reading the body as JSON
    or as a blob settles to, and the object URL the browser hands out. *)

From Stdlib Require Import List String Ascii Bool NArith Lia DecimalString.
Import ListNotations.
Open Scope string_scope.
Set Warnings "-register-all".

(** ** JavaScript values as the component sees them *)

(** A JSON number.  The component never computes with one: it only converts
    it to a boolean (the operators [||] and [&&]) and to a string (the
    [Error] constructor), so a number is carried with these two readings. *)
Record JSNumber := { num_is_zero : bool; num_text : string }.

(** What [res.json()] resolves to, plus [undefined] for a missing property. *)
Inductive Value :=
| VUndefined
| VNull
| VBool (b : bool)
| VNum (n : JSNumber)
| VStr (s : string)
| VArr (items : list Value)
| VObj (props : list (string * Value)).

(** ToBoolean. *)
Definition truthy (v : Value) : bool :=
  match v with
  | VUndefined | VNull => false
  | VBool b => b
  | VNum n => negb (num_is_zero n)
  | VStr s => negb (s =? "")
  | VArr _ | VObj _ => true
  end.

(** [a || b] *)
Definition js_or (a b : Value) : Value := if truthy a then a else b.

(** The own property [k] of a parsed JSON object. *)
Fixpoint lookup (k : string) (props : list (string * Value)) : option Value :=
  match props with
  | [] => None
  | (k', v) :: rest => if k' =? k then Some v else lookup k rest
  end.

(** ToString, as [new Error(message)] applies it to its argument; [None]
    when the conversion throws a TypeError.  An object is converted by its
    [toString] method: the inherited one gives [[object Object]], but an
    own property [toString] of a parsed body is data, never a function,
    and then nothing converts the object (the inherited [valueOf] returns
    the object itself).  An array is converted by joining the conversions
    of its elements, [null] and [undefined] counting as empty. *)
Fixpoint to_string (v : Value) : option string :=
  match v with
  | VUndefined => Some "undefined"
  | VNull => Some "null"
  | VBool true => Some "true"
  | VBool false => Some "false"
  | VNum n => Some (num_text n)
  | VStr s => Some s
  | VArr items =>
      (fix join (l : list Value) : option string :=
         match l with
         | [] => Some ""
         | x :: r =>
             match (match x with
                    | VUndefined | VNull => Some ""
                    | _ => to_string x
                    end) with
             | None => None
             | Some sx =>
                 match r with
                 | [] => Some sx
                 | _ :: _ =>
                     match join r with
                     | None => None
                     | Some sr => Some (sx ++ "," ++ sr)
                     end
                 end
             end
         end) items
  | VObj props =>
      match lookup "toString" props with
      | Some _ => None
      | None => Some "[object Object]"
      end
  end.

(** The message of the TypeError of a failed ToString (the wording is the
    engine's; V8's is used). *)
Definition to_primitive_error : string :=
  "Cannot convert object to primitive value".

(** The decimal rendering of an HTTP status code inside a template literal. *)
Definition show (n : N) : string := NilEmpty.string_of_uint (N.to_uint n).

(** ** Files, promises, responses *)

Definition Blob := list Byte.byte.

Record File := { name : string; mime : string; payload : Blob }.

(** A settled promise; a rejection carries the [message] of its error. *)
Inductive Settled (A : Type) :=
| Fulfilled (a : A)
| Rejected (message : string).
Arguments Fulfilled {A} a.
Arguments Rejected {A} message.

(** [p.catch(h)] *)
Definition promise_catch {A} (p : Settled A) (h : string -> A) : Settled A :=
  match p with
  | Fulfilled a => Fulfilled a
  | Rejected m => Fulfilled (h m)
  end.

Module Response.
(** A fetch [Response]: its status code and what reading its body as JSON
    or as a blob settles to. *)
Record t := { status : N; json : Settled Value; blob : Settled Blob }.

(** [res.ok]: the status is in the range 200-299. *)
Definition ok (res : t) : bool :=
  ((200 <=? status res) && (status res <=? 299))%N.
End Response.

(** ** Component state *)

Module State.
(** The five [useState] cells of the component. *)
Record t := {
  loading : bool;
  isDownloading : bool;
  status : string;
  text : Value;
  originalFile : option File
}.

(** The initial values passed to [useState]. *)
Definition init : t :=
  {| loading := false; isDownloading := false; status := "";
     text := VStr ""; originalFile := None |}.
End State.

(** ** Effects *)

(** The anchor element built by the download handler. *)
Record Anchor := { href : string; download : string }.

(** What a handler does, one constructor per call of the source: the five
    state setters, [fetch], the two body readers of a response, and the
    URL, DOM and console calls of the download and of the [catch] blocks.
    The assignments to [a.href] and [a.download] are carried by the anchor
    the DOM calls are made on. *)
Inductive Effect :=
| SetLoading (b : bool)
| SetIsDownloading (b : bool)
| SetStatus (s : string)
| SetText (v : Value)
| SetOriginalFile (f : option File)
| Fetch (url method : string) (formData : list (string * File))
| ResJson
| ResBlob
| CreateObjectURL (b : Blob) (url : string)
| CreateElement (tag : string)
| AppendChild (a : Anchor)
| Click (a : Anchor)
| Remove (a : Anchor)
| RevokeObjectURL (url : string)
| ConsoleError (label message : string).

(** The effects a handler awaits on: it is suspended right after issuing
    one, and resumed when the promise settles. *)
Definition suspends (e : Effect) : bool :=
  match e with
  | Fetch _ _ _ | ResJson | ResBlob => true
  | _ => false
  end.

(** A setter replaces its own cell; every setter of the component is called
    with a value, never with an updater function.  The other effects leave
    the state alone. *)
Definition apply_effect (st : State.t) (e : Effect) : State.t :=
  match e with
  | SetLoading b =>
      {| State.loading := b; State.isDownloading := State.isDownloading st;
         State.status := State.status st; State.text := State.text st;
         State.originalFile := State.originalFile st |}
  | SetIsDownloading b =>
      {| State.loading := State.loading st; State.isDownloading := b;
         State.status := State.status st; State.text := State.text st;
         State.originalFile := State.originalFile st |}
  | SetStatus s =>
      {| State.loading := State.loading st;
         State.isDownloading := State.isDownloading st;
         State.status := s; State.text := State.text st;
         State.originalFile := State.originalFile st |}
  | SetText v =>
      {| State.loading := State.loading st;
         State.isDownloading := State.isDownloading st;
         State.status := State.status st; State.text := v;
         State.originalFile := State.originalFile st |}
  | SetOriginalFile f =>
      {| State.loading := State.loading st;
         State.isDownloading := State.isDownloading st;
         State.status := State.status st; State.text := State.text st;
         State.originalFile := f |}
  | _ => st
  end.

(** The state after the effects of [l], in the order they are issued. *)
Definition apply_effects (st : State.t) (l : list Effect) : State.t :=
  fold_left apply_effect l st.

(** ** The handler monad *)

(** How a block completes; an exception is carried by its [error.message]. *)
Inductive Completion (A : Type) :=
| Normal (a : A)
| Throw (message : string).
Arguments Normal {A} a.
Arguments Throw {A} message.

(** A run: the effects performed, in order, and how the block completed. *)
Definition M (A : Type) : Type := (list Effect * Completion A)%type.

Definition trace {A} (m : M A) : list Effect := fst m.
Definition completion {A} (m : M A) : Completion A := snd m.

Definition ret {A} (a : A) : M A := ([], Normal a).

Definition throw {A} (message : string) : M A := ([], Throw message).

Definition bind {A B} (m : M A) (k : A -> M B) : M B :=
  match m with
  | (l, Normal a) => let (l', c) := k a in ((l ++ l')%list, c)
  | (l, Throw e) => (l, Throw e)
  end.

Definition emit (e : Effect) : M unit := ([e], Normal tt).

(** [try { body } catch (error) { handler }] *)
Definition try_catch {A} (body : M A) (handler : string -> M A) : M A :=
  match body with
  | (l, Normal a) => (l, Normal a)
  | (l, Throw e) => let (l', c) := handler e in ((l ++ l')%list, c)
  end.

(** [try { body } finally { final }] *)
Definition try_finally {A} (body : M A) (final : M unit) : M A :=
  let (l, c) := body in
  match final with
  | (l', Normal _) => ((l ++ l')%list, c)
  | (l', Throw e) => ((l ++ l')%list, Throw e)
  end.

Declare Scope js_scope.
Delimit Scope js_scope with js.
Notation "x <- m ;; k" := (bind m (fun x => k))
  (at level 61, m at next level, right associativity) : js_scope.
Notation "m ;; k" := (bind m (fun _ => k))
  (at level 61, right associativity) : js_scope.
Open Scope js_scope.

(** [await p] *)
Definition await {A} (p : Settled A) : M A :=
  match p with
  | Fulfilled a => ret a
  | Rejected m => throw m
  end.

(** The message of the TypeError raised by a property read on [null] or
    [undefined] (the wording is the engine's; V8's is used). *)
Definition type_error_message (v : Value) (k : string) : string :=
  "Cannot read properties of "
  ++ (match v with VUndefined => "undefined" | _ => "null" end)
  ++ " (reading '" ++ k ++ "')".

(** [v.k], for a key [k] that no built-in prototype defines (the component
    reads only [detail] and [text]). *)
Definition get (v : Value) (k : string) : M Value :=
  match v with
  | VUndefined | VNull => throw (type_error_message v k)
  | VObj props =>
      match lookup k props with
      | Some x => ret x
      | None => ret VUndefined
      end
  | _ => ret VUndefined
  end.

(** [throw new Error(message)]: the error's message is ToString of the
    argument, and the empty string when the argument is [undefined]; when
    ToString throws, it is that TypeError that is thrown instead. *)
Definition error_message (message : Value) : string :=
  match message with
  | VUndefined => ""
  | _ =>
      match to_string message with
      | Some s => s
      | None => to_primitive_error
      end
  end.

Definition throw_new_Error {A} (message : Value) : M A :=
  throw (error_message message).

Definition setLoading (b : bool) : M unit := emit (SetLoading b).
Definition setIsDownloading (b : bool) : M unit := emit (SetIsDownloading b).
Definition setStatus (s : string) : M unit := emit (SetStatus s).
Definition setText (v : Value) : M unit := emit (SetText v).
Definition setOriginalFile (f : option File) : M unit :=
  emit (SetOriginalFile f).
Definition console_error (label message : string) : M unit :=
  emit (ConsoleError label message).

(** [await fetch(url, { method, body: formData })]; [net] is what the
    request settles to. *)
Definition fetch (url method : string) (formData : list (string * File))
    (net : Settled Response.t) : M Response.t :=
  emit (Fetch url method formData) ;; await net.

(** ** The handlers *)

(** The [try] block of [handleUpload]. *)
Definition upload_try (file : File) (net : Settled Response.t) : M unit :=
  let formData := [("file", file)] in
  res <- fetch "http://localhost:8000/extract-text" "POST" formData net ;;
  data <- (emit ResJson ;; await (Response.json res)) ;;
  (if negb (Response.ok res)
   then detail <- get data "detail" ;;
        throw_new_Error
          (js_or detail (VStr ("Server error: " ++ show (Response.status res))))
   else ret tt) ;;
  t <- get data "text" ;;
  setText t ;;
  setStatus "Success! Text extracted." ;;
  setOriginalFile (Some file).

(** [handleUpload(e)], with [e.target.files[0]] given as an option. *)
Definition handleUpload (e : option File) (net : Settled Response.t)
    : M unit :=
  match e with
  | None => ret tt
  | Some file =>
      setLoading true ;;
      setStatus ("Processing " ++ name file ++ "...") ;;
      setText (VStr "") ;;
      setOriginalFile None ;;
      try_finally
        (try_catch (upload_try file net)
           (fun error =>
              console_error "Upload failed:" error ;;
              setStatus ("Error: " ++ error)))
        (setLoading false)
  end.

(** The [try] block of [handleDownload]; [objectURL] is the URL the browser
    hands out for the blob. *)
Definition download_try (file : File) (net : Settled Response.t)
    (objectURL : string) : M unit :=
  let formData := [("file", file)] in
  res <- fetch "http://localhost:8000/extract-docx" "POST" formData net ;;
  (if negb (Response.ok res)
   then body <- (emit ResJson ;;
                 await (promise_catch (Response.json res)
                          (fun _ => VObj []))) ;;
        errorDetail <- get body "detail" ;;
        throw_new_Error
          (js_or errorDetail
             (VStr ("Server error: " ++ show (Response.status res))))
   else ret tt) ;;
  blob <- (emit ResBlob ;; await (Response.blob res)) ;;
  url <- (emit (CreateObjectURL blob objectURL) ;; ret objectURL) ;;
  emit (CreateElement "a") ;;
  let a := {| href := url; download := "extracted_text.docx" |} in
  emit (AppendChild a) ;;
  emit (Click a) ;;
  emit (Remove a) ;;
  emit (RevokeObjectURL url) ;;
  setStatus "Success! File downloaded.".

(** [handleDownload()], closed over the state [st] of the render whose
    button was clicked; only [originalFile] is read from it. *)
Definition handleDownload (st : State.t) (net : Settled Response.t)
    (objectURL : string) : M unit :=
  match State.originalFile st with
  | None => ret tt
  | Some originalFile =>
      setIsDownloading true ;;
      setStatus "Preparing download..." ;;
      try_finally
        (try_catch (download_try originalFile net objectURL)
           (fun error =>
              console_error "Download failed:" error ;;
              setStatus ("Error: " ++ error)))
        (setIsDownloading false)
  end.

(** ** What the component renders *)

Inductive Node :=
| Nothing
| TextNode (s : string)
| Paragraph (className children : string)
| Button (disabled : bool) (children : string)
| Textarea (value : Value).

(** What React shows for the left operand of [&&] when it is falsy:
    [undefined], [null], [false] and the empty string show nothing, the
    number zero shows as text. *)
Definition render_falsy (v : Value) : Node :=
  match v with
  | VNum n => TextNode (num_text n)
  | _ => Nothing
  end.

(** The returned JSX: the file input, then the three conditional slots. *)
Record View := {
  input_disabled : bool;
  status_slot : Node;
  download_slot : Node;
  textarea_slot : Node
}.

Definition render (st : State.t) : View :=
  {| input_disabled := State.loading st || State.isDownloading st;
     status_slot :=
       if State.status st =? "" then Nothing
       else Paragraph
              ("text-sm mb-2 " ++
               (if prefix "Error:" (State.status st)
                then "text-red-600" else "text-blue-600"))
              (State.status st);
     download_slot :=
       if truthy (State.text st) then
         if negb (State.loading st) then
           Button (State.isDownloading st)
             (if State.isDownloading st
              then "Downloading..." else "Download as .docx")
         else Nothing
       else render_falsy (State.text st);
     textarea_slot :=
       if truthy (State.text st) then Textarea (State.text st)
       else render_falsy (State.text st) |}.

(** The download control is in the page. *)
Definition download_present (v : View) : bool :=
  match download_slot v with
  | Button _ _ => true
  | _ => false
  end.

(** The download control is in the page and not disabled. *)
Definition download_enabled (v : View) : bool :=
  match download_slot v with
  | Button disabled _ => negb disabled
  | _ => false
  end.

(** The extracted text the page shows: the value of the textarea when
    there is one, and no text at all otherwise. *)
Definition displayed_text (v : View) : Value :=
  match textarea_slot v with
  | Textarea value => value
  | _ => VStr ""
  end.

(** ** Interleaving of handlers *)

(** The part of a handler's remaining effects that runs before it is
    suspended again, and what is left for when it is resumed. *)
Fixpoint until_suspension (l : list Effect) : list Effect * list Effect :=
  match l with
  | [] => ([], [])
  | e :: r =>
      if suspends e then ([e], r)
      else let (now, later) := until_suspension r in (e :: now, later)
  end.

(** The component between two turns of the event loop: its state, the
    handlers suspended on an [await] (each with the effects it has still to
    perform), and the uploads started so far (each with the file picked and
    what its request settles to).  A handler runs from one [await] to the
    next without interruption and React commits the setter calls of a turn
    together, so these are the states a render shows and a user event
    meets. *)
Record Config := {
  ui : State.t;
  suspended : list (list Effect);
  uploads : list (File * Settled Response.t)
}.

Definition initial : Config :=
  {| ui := State.init; suspended := []; uploads := [] |}.

(** A handler is started from [c]: it runs up to its first [await]. *)
Definition start (c : Config) (m : M unit)
    (started : list (File * Settled Response.t)) : Config :=
  let (now, later) := until_suspension (trace m) in
  {| ui := apply_effects (ui c) now;
     suspended := later :: suspended c;
     uploads := (started ++ uploads c)%list |}.

(** One turn of the event loop.  The file input fires [handleUpload], the
    button fires [handleDownload] of the current render, or a suspended
    handler is resumed and runs to its next [await].  What a request settles
    to is fixed when the handler starts and is seen by the handler only when
    it is resumed.  Handlers may start while others are suspended: the
    [disabled] attributes are not relied upon. *)
Inductive step : Config -> Config -> Prop :=
| step_upload c e net :
    step c (start c (handleUpload e net)
              (match e with Some file => [(file, net)] | None => [] end))
| step_download c net objectURL :
    step c (start c (handleDownload (ui c) net objectURL) [])
| step_resume c before k after :
    suspended c = (before ++ k :: after)%list ->
    step c {| ui := apply_effects (ui c) (fst (until_suspension k));
              suspended := (before ++ snd (until_suspension k) :: after)%list;
              uploads := uploads c |}.

(** The configurations the component can be in. *)
Inductive reachable : Config -> Prop :=
| reachable_initial : reachable initial
| reachable_step c c' : reachable c -> step c c' -> reachable c'.

(** ** Vocabulary of the properties *)

(** The request each handler issues. *)
Definition upload_request (file : File) : Effect :=
  Fetch "http://localhost:8000/extract-text" "POST" [("file", file)].

Definition download_request (file : File) : Effect :=
  Fetch "http://localhost:8000/extract-docx" "POST" [("file", file)].

(** The effects of [handleUpload] before its [try] block. *)
Definition upload_prefix (file : File) : list Effect :=
  [SetLoading true; SetStatus ("Processing " ++ name file ++ "...");
   SetText (VStr ""); SetOriginalFile None].

(** The effects of [handleDownload] before its [try] block. *)
Definition download_prefix : list Effect :=
  [SetIsDownloading true; SetStatus "Preparing download..."].

(** The state once a handler started in [st] has run to its end. *)
Definition after (st : State.t) (m : M unit) : State.t :=
  apply_effects st (trace m).

(** The JSON body [data] is an object with a field [k]. *)
Definition field (k : string) (data : Value) : option Value :=
  match data with
  | VObj props => lookup k props
  | _ => None
  end.

(** Sample inputs. *)
Definition sample_pdf : File :=
  {| name := "sample.pdf"; mime := "application/pdf"; payload := [] |}.

Definition hello_world : string :=
  "Hello" ++ String (ascii_of_nat 10) "World".

Definition text_response : Response.t :=
  {| Response.status := 200;
     Response.json := Fulfilled (VObj [("text", VStr hello_world)]);
     Response.blob := Rejected "body stream already read" |}.

Definition docx_response : Response.t :=
  {| Response.status := 200;
     Response.json := Rejected "Unexpected token P in JSON at position 0";
     Response.blob := Fulfilled [Byte.x50; Byte.x4b] |}.

Definition detail_response : Response.t :=
  {| Response.status := 415;
     Response.json :=
       Fulfilled (VObj [("detail", VStr "Unsupported file type")]);
     Response.blob := Rejected "body stream already read" |}.

Definition plain_500_response : Response.t :=
  {| Response.status := 500;
     Response.json := Rejected "Unexpected token I in JSON at position 0";
     Response.blob := Rejected "body stream already read" |}.

(** The state after [sample_pdf] was uploaded and its text extracted. *)
Definition extracted : State.t :=
  after State.init (handleUpload (Some sample_pdf) (Fulfilled text_response)).

(** The extracted text counts as empty when it is falsy, which is how the
    JSX tests it. *)
Definition text_empty (st : State.t) : bool := negb (truthy (State.text st)).

(** The configuration after [sample_pdf] was uploaded and its text
    extracted, with nothing else started. *)
Definition extracted_config : Config :=
  {| ui := extracted;
     suspended := [[]];
     uploads := [(sample_pdf, Fulfilled text_response)] |}.

(** The setter of each cell. *)
Definition sets_loading (e : Effect) : bool :=
  match e with SetLoading _ => true | _ => false end.

Definition sets_isDownloading (e : Effect) : bool :=
  match e with SetIsDownloading _ => true | _ => false end.

Definition sets_text (e : Effect) : bool :=
  match e with SetText _ => true | _ => false end.

Definition sets_originalFile (e : Effect) : bool :=
  match e with SetOriginalFile _ => true | _ => false end.

(** No effect of [l] satisfies [p]. *)
Definition none (p : Effect -> bool) (l : list Effect) : bool :=
  forallb (fun e => negb (p e)) l.

(** A network request. *)
Definition is_request (e : Effect) : bool :=
  match e with Fetch _ _ _ => true | _ => false end.

(** How many requests a run issues. *)
Definition requests (l : list Effect) : nat :=
  List.length (filter is_request l).

(** The upload ends in an error: the request is rejected, or the status is
    not 2xx, or anything is thrown inside the [try] block. *)
Definition upload_fails (file : File) (net : Settled Response.t) : Prop :=
  (exists m, net = Rejected m)
  \/ (exists res, net = Fulfilled res /\ Response.ok res = false)
  \/ (exists m, completion (upload_try file net) = Throw m).

Definition download_fails (file : File) (net : Settled Response.t)
    (objectURL : string) : Prop :=
  (exists m, net = Rejected m)
  \/ (exists res, net = Fulfilled res /\ Response.ok res = false)
  \/ (exists m, completion (download_try file net objectURL) = Throw m).

(** The object URLs created and not revoked by the end of [l], given the
    ones that were [live] at its start. *)
Fixpoint unrevoked_from (live : list string) (l : list Effect)
    : list string :=
  match l with
  | [] => live
  | CreateObjectURL _ u :: r => unrevoked_from (u :: live) r
  | RevokeObjectURL u :: r =>
      unrevoked_from (filter (fun x => negb (x =? u)) live) r
  | _ :: r => unrevoked_from live r
  end.

Definition unrevoked (l : list Effect) : list string := unrevoked_from [] l.

(** A run cut into the turns of the event loop it takes: a turn ends with
    the effect the handler is suspended on. *)
Fixpoint turns (l : list Effect) : list (list Effect) :=
  match l with
  | [] => [[]]
  | e :: r =>
      if suspends e then [e] :: turns r
      else match turns r with
           | t :: ts => (e :: t) :: ts
           | [] => [[e]]
           end
  end.

(** The text and the remembered file of [st] come from one upload among
    the uploads [H] started so far: the file is the one that upload sent,
    its response was 2xx and the text is the [text] field of its JSON
    body. *)
Definition produced_by_upload (H : list (File * Settled Response.t))
    (st : State.t) : Prop :=
  exists file res data,
    State.originalFile st = Some file
    /\ In (file, Fulfilled res) H
    /\ Response.ok res = true
    /\ Response.json res = Fulfilled data
    /\ get data "text" = ret (State.text st).

(** The invariant: text that is not empty comes with its file. *)
Definition linked (H : list (File * Settled Response.t)) (st : State.t)
    : Prop :=
  text_empty st = false -> produced_by_upload H st.

(** A turn keeps the invariant, whatever uploads are started besides the
    ones of [H]. *)
Definition keeps_linked (H : list (File * Settled Response.t))
    (turn : list Effect) : Prop :=
  forall H' st, incl H H' -> linked H' st -> linked H' (apply_effects st turn).

(** A suspended handler keeps the invariant in each of the turns it has
    still to run. *)
Inductive safe (H : list (File * Settled Response.t))
    : list Effect -> Prop :=
| safe_done : safe H []
| safe_turn k :
    keeps_linked H (fst (until_suspension k)) ->
    safe H (snd (until_suspension k)) ->
    safe H k.

(** The invariant of the interleaved system. *)
Definition invariant (c : Config) : Prop :=
  linked (uploads c) (ui c) /\ Forall (safe (uploads c)) (suspended c).

(** ** Vocabulary of the further properties *)

(** The class names of the status paragraph. *)
Definition blue : string := "text-sm mb-2 text-blue-600".
Definition red : string := "text-sm mb-2 text-red-600".

(** The requests of a run, in the order they are issued. *)
Definition requests_of (l : list Effect) : list Effect := filter is_request l.

(** Sample inputs: error bodies without a usable [detail], and one whose
    [detail] is a list of objects. *)
Definition empty_object_404 : Response.t :=
  {| Response.status := 404;
     Response.json := Fulfilled (VObj []);
     Response.blob := Rejected "body stream already read" |}.

Definition validation_422 : Response.t :=
  {| Response.status := 422;
     Response.json :=
       Fulfilled
         (VObj [("detail",
                 VArr [VObj [("msg", VStr "field required")]])]);
     Response.blob := Rejected "body stream already read" |}.

(** A [detail] that is an object with an own property [toString]. *)
Definition own_toString_detail : Value :=
  VObj [("toString", VNum {| num_is_zero := false; num_text := "1" |})].

Definition own_toString_400 : Response.t :=
  {| Response.status := 400;
     Response.json := Fulfilled (VObj [("detail", own_toString_detail)]);
     Response.blob := Rejected "body stream already read" |}.

Definition empty_object_200 : Response.t :=
  {| Response.status := 200;
     Response.json := Fulfilled (VObj []);
     Response.blob := Rejected "body stream already read" |}.

(** ** The page as rendered: handlers start from enabled controls only *)

(** One turn of the event loop when the [disabled] attributes and the
    conditional rendering are honoured: [handleUpload] starts only while
    the file input is enabled, [handleDownload] only from a button that is
    in the page and enabled; a suspended handler resumes as in [step]. *)
Inductive ui_step : Config -> Config -> Prop :=
| ui_select c e net :
    input_disabled (render (ui c)) = false ->
    ui_step c (start c (handleUpload e net)
                 (match e with Some file => [(file, net)] | None => [] end))
| ui_click c net objectURL :
    download_enabled (render (ui c)) = true ->
    ui_step c (start c (handleDownload (ui c) net objectURL) [])
| ui_resume c before k after :
    suspended c = (before ++ k :: after)%list ->
    ui_step c {| ui := apply_effects (ui c) (fst (until_suspension k));
                 suspended :=
                   (before ++ snd (until_suspension k) :: after)%list;
                 uploads := uploads c |}.

Inductive ui_reachable : Config -> Prop :=
| ui_reachable_initial : ui_reachable initial
| ui_reachable_step c c' : ui_reachable c -> ui_step c c' -> ui_reachable c'.

(** A handler that has effects left to perform. *)
Definition unfinished (k : list Effect) : bool :=
  match k with
  | [] => false
  | _ :: _ => true
  end.

(** The handlers in flight: suspended, with effects left to perform. *)
Definition in_flight (c : Config) : list (list Effect) :=
  filter unfinished (suspended c).

(** What is left of a handler that holds a busy flag: effects that do not
    set the flag, then [last], which resets it; none of them sets the
    other flag. *)
Definition winds_down (sets other : Effect -> bool) (last : Effect)
    (k : list Effect) : Prop :=
  exists body,
    k = (body ++ [last])%list
    /\ none sets body = true
    /\ none other k = true.

(** At most one handler is in flight, and the busy flags say which. *)
Definition exclusive (c : Config) : Prop :=
  match in_flight c with
  | [] =>
      State.loading (ui c) = false /\ State.isDownloading (ui c) = false
  | [k] =>
      (winds_down sets_loading sets_isDownloading (SetLoading false) k
       /\ State.loading (ui c) = true
       /\ State.isDownloading (ui c) = false)
      \/ (winds_down sets_isDownloading sets_loading (SetIsDownloading false) k
          /\ State.isDownloading (ui c) = true
          /\ State.loading (ui c) = false)
  | _ :: _ :: _ => False
  end.

(** The configuration while the upload of [sample_pdf] waits for its
    response. *)
Definition uploading_config : Config :=
  start initial (handleUpload (Some sample_pdf) (Fulfilled text_response))
    [(sample_pdf, Fulfilled text_response)].

(** ** The earlier versions of the component *)

(** The first version kept in the repository (the first component of
    [unnamed/part_000]): two cells, no status line, no error handling. *)
Module TextOnly.
(** The two [useState] cells. *)
Record t := { text : Value; loading : bool }.

Definition init : t := {| text := VStr ""; loading := false |}.

Definition apply_effect (st : t) (e : Effect) : t :=
  match e with
  | SetText v => {| text := v; loading := loading st |}
  | SetLoading b => {| text := text st; loading := b |}
  | _ => st
  end.

Definition apply_effects (st : t) (l : list Effect) : t :=
  fold_left apply_effect l st.

Definition after (st : t) (m : M unit) : t := apply_effects st (trace m).

(** [handleUpload(e)]: no [try], so an exception ends the handler where
    it is raised. *)
Definition handleUpload (e : option File) (net : Settled Response.t)
    : M unit :=
  match e with
  | None => ret tt
  | Some file =>
      setLoading true ;;
      let formData := [("file", file)] in
      res <- fetch "http://localhost:8000/extract" "POST" formData net ;;
      data <- (emit ResJson ;; await (Response.json res)) ;;
      t <- get data "text" ;;
      setText t ;;
      setLoading false
  end.

(** The returned JSX below the file input, which is never disabled. *)
Record View := { processing_slot : Node; textarea_slot : Node }.

Definition render (st : t) : View :=
  {| processing_slot :=
       if loading st then Paragraph "text-blue-600" "Processing PDF..."
       else Nothing;
     textarea_slot :=
       if truthy (text st) then Textarea (text st)
       else render_falsy (text st) |}.
End TextOnly.

(** The second version kept in the repository (the second component of
    [unnamed/part_000]): the upload handler itself saves the document. *)
Module DocxOnly.
(** The two [useState] cells. *)
Record t := { loading : bool; status : string }.

Definition init : t := {| loading := false; status := "" |}.

Definition apply_effect (st : t) (e : Effect) : t :=
  match e with
  | SetLoading b => {| loading := b; status := status st |}
  | SetStatus s => {| loading := loading st; status := s |}
  | _ => st
  end.

Definition apply_effects (st : t) (l : list Effect) : t :=
  fold_left apply_effect l st.

Definition after (st : t) (m : M unit) : t := apply_effects st (trace m).

(** The [try] block of [handleUpload]. *)
Definition upload_try (file : File) (net : Settled Response.t)
    (objectURL : string) : M unit :=
  let formData := [("file", file)] in
  res <- fetch "http://localhost:8000/extract" "POST" formData net ;;
  (if negb (Response.ok res)
   then body <- (emit ResJson ;;
                 await (promise_catch (Response.json res)
                          (fun _ => VObj []))) ;;
        errorDetail <- get body "detail" ;;
        throw_new_Error
          (js_or errorDetail
             (VStr ("Server error: " ++ show (Response.status res))))
   else ret tt) ;;
  blob <- (emit ResBlob ;; await (Response.blob res)) ;;
  url <- (emit (CreateObjectURL blob objectURL) ;; ret objectURL) ;;
  emit (CreateElement "a") ;;
  let a := {| href := url; download := "extracted_text.docx" |} in
  emit (AppendChild a) ;;
  emit (Click a) ;;
  emit (Remove a) ;;
  emit (RevokeObjectURL url) ;;
  setStatus "Success! Your file has been downloaded.".

Definition handleUpload (e : option File) (net : Settled Response.t)
    (objectURL : string) : M unit :=
  match e with
  | None => ret tt
  | Some file =>
      setLoading true ;;
      setStatus ("Processing " ++ name file ++ "...") ;;
      try_finally
        (try_catch (upload_try file net objectURL)
           (fun error =>
              console_error "Upload failed:" error ;;
              setStatus ("Error: " ++ error)))
        (setLoading false)
  end.

(** The returned JSX: the file input and the status paragraph. *)
Record View := { input_disabled : bool; status_slot : Node }.

Definition render (st : t) : View :=
  {| input_disabled := loading st;
     status_slot :=
       if status st =? "" then Nothing
       else Paragraph
              ("text-sm " ++
               (if prefix "Error:" (status st)
                then "text-red-600" else "text-blue-600"))
              (status st) |}.
End DocxOnly.

(** The request of the earlier versions. *)
Definition extract_request (file : File) : Effect :=
  Fetch "http://localhost:8000/extract" "POST" [("file", file)].

(** The state of the first version with a text on the page. *)
Definition text_only_shown : TextOnly.t :=
  {| TextOnly.text := VStr hello_world; TextOnly.loading := false |}.

(** A 2xx response whose body is the JSON value [null]. *)
Definition null_200 : Response.t :=
  {| Response.status := 200;
     Response.json := Fulfilled VNull;
     Response.blob := Rejected "body stream already read" |}.

(** * Properties *)

(** ** Shapes of the handlers' runs *)

Lemma get_cases (v : Value) (k : string) :
  (exists m, get v k = ([], Throw m)) \/ (exists x, get v k = ([], Normal x)).
Proof.
  destruct v; cbn; try (right; eexists; reflexivity).
  - left; eexists; reflexivity.
  - left; eexists; reflexivity.
  - destruct (lookup k props); right; eexists; reflexivity.
Qed.

(** The [try] block of the upload either throws, having issued the request
    and at most read the body, or runs to its end on a 2xx response whose
    body parsed. *)
Lemma upload_try_cases (file : File) (net : Settled Response.t) :
  (exists m pre,
      upload_try file net = (upload_request file :: pre, Throw m)
      /\ (pre = [] \/ pre = [ResJson]))
  \/ (exists res data t,
         net = Fulfilled res
         /\ Response.ok res = true
         /\ Response.json res = Fulfilled data
         /\ get data "text" = ret t
         /\ upload_try file net =
              ([upload_request file; ResJson; SetText t;
                SetStatus "Success! Text extracted.";
                SetOriginalFile (Some file)], Normal tt)).
Proof.
  unfold upload_try, fetch, upload_request.
  destruct net as [res | m]; cbn.
  2: { left. exists m, []. split; [reflexivity | now left]. }
  destruct (Response.json res) as [data | m] eqn:Hjson; cbn.
  2: { left. exists m, [ResJson]. split; [reflexivity | now right]. }
  destruct (Response.ok res) eqn:Hok; cbn.
  - destruct (get_cases data "text") as [[m Hg] | [t Hg]]; rewrite Hg; cbn.
    + left. exists m, [ResJson]. split; [reflexivity | now right].
    + right. exists res, data, t. repeat split; auto.
  - left.
    destruct (get_cases data "detail") as [[m Hg] | [d Hg]]; rewrite Hg; cbn.
    + exists m, [ResJson]. split; [reflexivity | now right].
    + eexists _, [ResJson]. split; [reflexivity | now right].
Qed.

(** The [try] block of the download either throws, having issued the
    request and at most read the body once, or saves the blob. *)
Lemma download_try_cases (file : File) (net : Settled Response.t)
    (objectURL : string) :
  (exists m pre,
      download_try file net objectURL = (download_request file :: pre, Throw m)
      /\ (pre = [] \/ pre = [ResJson] \/ pre = [ResBlob]))
  \/ (exists res b,
         net = Fulfilled res
         /\ Response.ok res = true
         /\ Response.blob res = Fulfilled b
         /\ download_try file net objectURL =
              (let a := {| href := objectURL;
                           download := "extracted_text.docx" |} in
               [download_request file; ResBlob; CreateObjectURL b objectURL;
                CreateElement "a"; AppendChild a; Click a; Remove a;
                RevokeObjectURL objectURL;
                SetStatus "Success! File downloaded."], Normal tt)).
Proof.
  unfold download_try, fetch, download_request.
  destruct net as [res | m]; cbn.
  2: { left. exists m, []. split; [reflexivity | now left]. }
  destruct (Response.ok res) eqn:Hok; cbn.
  - destruct (Response.blob res) as [b | m] eqn:Hblob; cbn.
    + right. exists res, b. repeat split; auto.
    + left. exists m, [ResBlob]. split; [reflexivity | auto].
  - left.
    destruct (Response.json res) as [data | m0]; cbn.
    + destruct (get_cases data "detail") as [[m Hg] | [d Hg]];
        rewrite Hg; cbn; eexists _, [ResJson]; (split; [reflexivity | auto]).
    + eexists _, [ResJson]. split; [reflexivity | auto].
Qed.

Lemma handleUpload_throw file net l m :
  upload_try file net = (l, Throw m) ->
  handleUpload (Some file) net =
    ((upload_prefix file ++ l ++
      [ConsoleError "Upload failed:" m; SetStatus ("Error: " ++ m);
       SetLoading false])%list, Normal tt).
Proof.
  intros H. unfold handleUpload. rewrite H. cbn.
  rewrite <- app_assoc. reflexivity.
Qed.

Lemma handleUpload_normal file net l :
  upload_try file net = (l, Normal tt) ->
  handleUpload (Some file) net =
    ((upload_prefix file ++ l ++ [SetLoading false])%list, Normal tt).
Proof. intros H. unfold handleUpload. rewrite H. reflexivity. Qed.

Lemma handleDownload_throw st file net objectURL l m :
  State.originalFile st = Some file ->
  download_try file net objectURL = (l, Throw m) ->
  handleDownload st net objectURL =
    ((download_prefix ++ l ++
      [ConsoleError "Download failed:" m; SetStatus ("Error: " ++ m);
       SetIsDownloading false])%list, Normal tt).
Proof.
  intros Hf H. unfold handleDownload. rewrite Hf, H. cbn.
  rewrite <- app_assoc. reflexivity.
Qed.

Lemma handleDownload_normal st file net objectURL l :
  State.originalFile st = Some file ->
  download_try file net objectURL = (l, Normal tt) ->
  handleDownload st net objectURL =
    ((download_prefix ++ l ++ [SetIsDownloading false])%list, Normal tt).
Proof. intros Hf H. unfold handleDownload. rewrite Hf, H. reflexivity. Qed.

(** ** Status messages and the view *)

Lemma field_get k data v : field k data = Some v -> get data k = ret v.
Proof.
  destruct data; cbn; try discriminate.
  intros ->. reflexivity.
Qed.

Lemma truthy_nonempty s : s <> "" -> truthy (VStr s) = true.
Proof.
  intros H. cbn. destruct (String.eqb_spec s ""); [contradiction | reflexivity].
Qed.

(** C1, on the upload path: a non-2xx response whose body is not JSON.
    [handleUpload] awaits [res.json()] before it looks at [res.ok], with
    nothing to catch the rejection, so the status message carries the
    parser's message and not the generic server error with the status
    code. *)
Theorem upload_unparseable_error_body :
  State.status
    (after State.init
       (handleUpload (Some sample_pdf) (Fulfilled plain_500_response)))
  = "Error: Unexpected token I in JSON at position 0".
Proof. reflexivity. Qed.

(** On the download path the rejection of [res.json()] is caught and the
    generic message with the status code is used. *)
Lemma download_unparseable_error_body st file net res m objectURL :
  State.originalFile st = Some file ->
  net = Fulfilled res ->
  Response.ok res = false ->
  Response.json res = Rejected m ->
  State.status (after st (handleDownload st net objectURL))
  = "Error: Server error: " ++ show (Response.status res).
Proof.
  intros Hf -> Hok Hjson.
  unfold after, handleDownload, download_try, fetch.
  rewrite Hf. cbn. rewrite Hok, Hjson. reflexivity.
Qed.

(** On the upload path the generic message is used when the body parses
    but has no usable [detail]. *)
Lemma upload_error_body_without_detail st file net res props :
  net = Fulfilled res ->
  Response.ok res = false ->
  Response.json res = Fulfilled (VObj props) ->
  lookup "detail" props = None ->
  State.status (after st (handleUpload (Some file) net))
  = "Error: Server error: " ++ show (Response.status res).
Proof.
  intros -> Hok Hjson Hd.
  unfold after, handleUpload, upload_try, fetch.
  cbn. rewrite Hok, Hjson. cbn. rewrite Hd. reflexivity.
Qed.

(** C2: a 2xx response of the text endpoint whose JSON body has a field
    [text] equal to the string [S].  The component stores exactly [S],
    the text shown is exactly [S] (line breaks are characters of [S] like
    any other), and the status is the success message.  The textarea is
    rendered with value [S] whenever [S] is not empty. *)
Theorem upload_success_stores_and_displays_text
    st file net res data (S : string) :
  net = Fulfilled res ->
  Response.ok res = true ->
  Response.json res = Fulfilled data ->
  field "text" data = Some (VStr S) ->
  let st' := after st (handleUpload (Some file) net) in
  State.text st' = VStr S
  /\ displayed_text (render st') = VStr S
  /\ State.status st' = "Success! Text extracted."
  /\ (S <> "" -> textarea_slot (render st') = Textarea (VStr S)).
Proof.
  intros -> Hok Hjson Hfield.
  unfold after, handleUpload, upload_try, fetch.
  cbn. rewrite Hok, Hjson. cbn. rewrite (field_get _ _ _ Hfield). cbn.
  repeat split.
  - unfold displayed_text, render. cbn.
    destruct (String.eqb_spec S ""); cbn; congruence.
  - intros HS. unfold render. cbn.
    destruct (String.eqb_spec S ""); [contradiction | reflexivity].
Qed.

Lemma upload_success_stores_and_displays_text_witness :
  State.text extracted = VStr hello_world
  /\ displayed_text (render extracted) = VStr hello_world
  /\ State.status extracted = "Success! Text extracted."
  /\ (hello_world <> "" ->
      textarea_slot (render extracted) = Textarea (VStr hello_world)).
Proof.
  exact (upload_success_stores_and_displays_text State.init sample_pdf
           (Fulfilled text_response) text_response
           (VObj [("text", VStr hello_world)]) hello_world
           eq_refl eq_refl eq_refl eq_refl).
Defined.

(** C4: a non-2xx response of either endpoint whose JSON body has a field
    [detail] equal to a non-empty string [X] gives the status message
    [Error: X]. *)
Theorem error_detail_is_reported st file net res data (X : string) objectURL :
  net = Fulfilled res ->
  Response.ok res = false ->
  Response.json res = Fulfilled data ->
  field "detail" data = Some (VStr X) ->
  X <> "" ->
  State.status (after st (handleUpload (Some file) net)) = "Error: " ++ X
  /\ (State.originalFile st = Some file ->
      State.status (after st (handleDownload st net objectURL))
      = "Error: " ++ X).
Proof.
  intros -> Hok Hjson Hfield HX.
  pose proof (field_get _ _ _ Hfield) as Hget.
  pose proof (truthy_nonempty X HX) as Ht.
  split.
  - unfold after, handleUpload, upload_try, fetch.
    cbn. rewrite Hok, Hjson. cbn. rewrite Hget. cbn.
    unfold js_or. rewrite Ht. reflexivity.
  - intros Hf. unfold after, handleDownload, download_try, fetch.
    rewrite Hf. cbn. rewrite Hok, Hjson. cbn. rewrite Hget. cbn.
    unfold js_or. rewrite Ht. reflexivity.
Qed.

Lemma error_detail_is_reported_witness :
  State.status
    (after extracted
       (handleUpload (Some sample_pdf) (Fulfilled detail_response)))
  = "Error: Unsupported file type"
  /\ (State.originalFile extracted = Some sample_pdf ->
      State.status
        (after extracted
           (handleDownload extracted (Fulfilled detail_response) "blob:1"))
      = "Error: Unsupported file type").
Proof.
  apply (error_detail_is_reported extracted sample_pdf
           (Fulfilled detail_response) detail_response
           (VObj [("detail", VStr "Unsupported file type")])
           "Unsupported file type" "blob:1");
    [reflexivity | reflexivity | reflexivity | reflexivity | discriminate].
Defined.

(** For a string, falsy means the empty string. *)
Lemma text_empty_string st s :
  State.text st = VStr s -> text_empty st = (s =? "").
Proof.
  unfold text_empty. intros ->. cbn. apply negb_involutive.
Qed.

(** What decides the download control, in any state. *)
Lemma render_download_control st :
  download_present (render st)
  = negb (text_empty st) && negb (State.loading st)
  /\ download_enabled (render st)
     = negb (text_empty st) && negb (State.loading st)
       && negb (State.isDownloading st).
Proof.
  unfold download_present, download_enabled, render, text_empty. cbn.
  destruct (truthy (State.text st)) eqn:Ht; cbn.
  - destruct (State.loading st); cbn; auto.
  - destruct (State.text st); cbn in *; auto; discriminate.
Qed.

Lemma reachable_extracted_config : reachable extracted_config.
Proof.
  pose (m := handleUpload (Some sample_pdf) (Fulfilled text_response)).
  pose (c1 := start initial m [(sample_pdf, Fulfilled text_response)]).
  pose (k1 := snd (until_suspension (trace m))).
  pose (k2 := snd (until_suspension k1)).
  pose (c2 := {| ui := apply_effects (ui c1) (fst (until_suspension k1));
                 suspended := [k2]; uploads := uploads c1 |}).
  apply (reachable_step c2).
  - apply (reachable_step c1).
    + apply (reachable_step initial).
      * apply reachable_initial.
      * exact (step_upload initial (Some sample_pdf)
                 (Fulfilled text_response)).
    + exact (step_resume c1 [] k1 [] eq_refl).
  - exact (step_resume c2 [] k2 [] eq_refl).
Qed.

(** C3: in every reachable state the download control is absent when the
    extracted text is empty, present when the text is not empty and
    neither busy flag is set, and enabled only when the text is not empty
    and neither busy flag is set. *)
Theorem download_control_gating c :
  reachable c ->
  let st := ui c in
  (text_empty st = true -> download_present (render st) = false)
  /\ (text_empty st = false -> State.loading st = false ->
      State.isDownloading st = false ->
      download_present (render st) = true)
  /\ (download_enabled (render st) = true ->
      text_empty st = false /\ State.loading st = false
      /\ State.isDownloading st = false).
Proof.
  intros _ st.
  destruct (render_download_control st) as [Hp He].
  rewrite Hp, He.
  destruct (text_empty st), (State.loading st), (State.isDownloading st);
    cbn; repeat split; intros; try reflexivity; discriminate.
Qed.

Lemma download_control_gating_witness :
  download_present (render (ui initial)) = false
  /\ download_present (render (ui extracted_config)) = true
  /\ (download_enabled (render (ui extracted_config)) = true ->
      text_empty (ui extracted_config) = false
      /\ State.loading (ui extracted_config) = false
      /\ State.isDownloading (ui extracted_config) = false).
Proof.
  split; [| split].
  - apply (proj1 (download_control_gating initial reachable_initial)).
    reflexivity.
  - apply (proj1 (proj2 (download_control_gating extracted_config
                           reachable_extracted_config))); reflexivity.
  - exact (proj2 (proj2 (download_control_gating extracted_config
                           reachable_extracted_config))).
Defined.

(** C7: [handleDownload] with no remembered file returns at once: it
    performs no effect at all (no state setter, no request), so the state
    is left as it was. *)
Theorem download_without_file_is_noop st net objectURL :
  State.originalFile st = None ->
  handleDownload st net objectURL = ret tt
  /\ trace (handleDownload st net objectURL) = []
  /\ after st (handleDownload st net objectURL) = st.
Proof.
  intros H. unfold after, handleDownload. rewrite H. auto.
Qed.

Lemma download_without_file_is_noop_witness :
  handleDownload State.init (Fulfilled docx_response) "blob:1" = ret tt
  /\ trace (handleDownload State.init (Fulfilled docx_response) "blob:1") = []
  /\ after State.init
       (handleDownload State.init (Fulfilled docx_response) "blob:1")
     = State.init.
Proof.
  apply (download_without_file_is_noop State.init (Fulfilled docx_response)
           "blob:1").
  reflexivity.
Defined.

(** ** Frame lemmas: which effects can change which cell *)

Lemma apply_effects_app st (l1 l2 : list Effect) :
  apply_effects st (l1 ++ l2)%list = apply_effects (apply_effects st l1) l2.
Proof. unfold apply_effects. apply fold_left_app. Qed.

Lemma none_app p (l1 l2 : list Effect) :
  none p (l1 ++ l2)%list = none p l1 && none p l2.
Proof. unfold none. apply forallb_app. Qed.

Lemma none_firstn p l k : none p l = true -> none p (firstn k l) = true.
Proof.
  revert k. induction l as [| e l IH]; intros [| k]; cbn; auto.
  intros H. apply andb_true_iff in H as [He Hl].
  rewrite He. cbn. apply IH, Hl.
Qed.

Section Cell.
(** A cell of the state, read by [cell], that only the effects
    recognised by [sets] can change. *)
Context {T : Type} (cell : State.t -> T) (sets : Effect -> bool).
Hypothesis frame :
  forall st e, sets e = false -> cell (apply_effect st e) = cell st.

Lemma cell_unchanged l st :
  none sets l = true -> cell (apply_effects st l) = cell st.
Proof.
  revert st. induction l as [| e l IH]; intros st H; [reflexivity |].
  cbn in H. apply andb_true_iff in H as [He Hl].
  cbn. fold (apply_effects (apply_effect st e) l).
  rewrite (IH _ Hl). apply frame.
  now apply negb_true_iff in He.
Qed.

(** A run that sets the cell first and last, and not in between, holds
    the first value at every point strictly inside the run. *)
Lemma cell_held first mid last v st k :
  (forall st0, cell (apply_effect st0 first) = v) ->
  none sets mid = true ->
  1 <= k < List.length (first :: mid ++ [last])%list ->
  cell (apply_effects st (firstn k (first :: mid ++ [last])%list)) = v.
Proof.
  intros Hfirst Hmid Hk.
  destruct k as [| k]; [lia |].
  cbn [firstn]. cbn in Hk. rewrite length_app in Hk. cbn in Hk.
  rewrite firstn_app.
  replace (k - List.length mid) with 0 by lia. cbn [firstn].
  rewrite app_nil_r.
  cbn. fold (apply_effects (apply_effect st first) (firstn k mid)).
  rewrite cell_unchanged by (apply none_firstn, Hmid).
  apply Hfirst.
Qed.
End Cell.

Lemma frame_loading st e :
  sets_loading e = false ->
  State.loading (apply_effect st e) = State.loading st.
Proof. destruct e; cbn; congruence. Qed.

Lemma frame_isDownloading st e :
  sets_isDownloading e = false ->
  State.isDownloading (apply_effect st e) = State.isDownloading st.
Proof. destruct e; cbn; congruence. Qed.

Lemma frame_text st e :
  sets_text e = false -> State.text (apply_effect st e) = State.text st.
Proof. destruct e; cbn; congruence. Qed.

Lemma frame_originalFile st e :
  sets_originalFile e = false ->
  State.originalFile (apply_effect st e) = State.originalFile st.
Proof. destruct e; cbn; congruence. Qed.

(** The run of [handleUpload], laid out: the clearing prefix, the request,
    a body that never touches [loading], and the [finally] block. *)
Lemma handleUpload_layout file net :
  exists body,
    trace (handleUpload (Some file) net)
    = (upload_prefix file ++ upload_request file :: body
       ++ [SetLoading false])%list
    /\ none sets_loading body = true.
Proof.
  destruct (upload_try_cases file net)
    as [(m & pre & H & Hpre) | (res & data & t & _ & _ & _ & _ & H)].
  - rewrite (handleUpload_throw _ _ _ _ H).
    exists (pre ++ [ConsoleError "Upload failed:" m;
                    SetStatus ("Error: " ++ m)])%list.
    split.
    + cbn. rewrite <- app_assoc. reflexivity.
    + destruct Hpre as [-> | ->]; reflexivity.
  - rewrite (handleUpload_normal _ _ _ H).
    eexists. split; reflexivity.
Qed.

(** The run of [handleDownload] with a remembered file, laid out: the
    prefix, the request, a body that sets none of [loading], [text],
    [originalFile], [isDownloading], and the [finally] block. *)
Lemma handleDownload_layout st file net objectURL :
  State.originalFile st = Some file ->
  exists body,
    trace (handleDownload st net objectURL)
    = (download_prefix ++ download_request file :: body
       ++ [SetIsDownloading false])%list
    /\ none sets_isDownloading body = true
    /\ none sets_loading body = true
    /\ none sets_text body = true
    /\ none sets_originalFile body = true.
Proof.
  intros Hf.
  destruct (download_try_cases file net objectURL)
    as [(m & pre & H & Hpre) | (res & b & _ & _ & _ & H)].
  - rewrite (handleDownload_throw _ _ _ _ _ _ Hf H).
    exists (pre ++ [ConsoleError "Download failed:" m;
                    SetStatus ("Error: " ++ m)])%list.
    split.
    + cbn. rewrite <- app_assoc. reflexivity.
    + destruct Hpre as [-> | [-> | ->]]; repeat split; reflexivity.
  - rewrite (handleDownload_normal _ _ _ _ _ Hf H).
    eexists. split; [reflexivity | repeat split; reflexivity].
Qed.

(** C5: every run of [handleUpload] on a selected file starts by setting
    the busy flag, emptying the extracted text and forgetting the
    remembered file; only then is the request issued.  The handler is
    suspended on the request in a state where the text is empty and no
    file is remembered, and [loading] is true at every point of the run
    after its first effect and before its last, which resets it. *)
Theorem upload_clears_before_request st file net :
  let tr := trace (handleUpload (Some file) net) in
  let waiting := apply_effects st (fst (until_suspension tr)) in
  (exists rest,
      tr = (upload_prefix file ++ upload_request file :: rest)%list)
  /\ fst (until_suspension tr)
     = (upload_prefix file ++ [upload_request file])%list
  /\ State.text (apply_effects st (upload_prefix file)) = VStr ""
  /\ State.originalFile (apply_effects st (upload_prefix file)) = None
  /\ State.text waiting = VStr ""
  /\ State.originalFile waiting = None
  /\ (forall k, 1 <= k < List.length tr ->
        State.loading (apply_effects st (firstn k tr)) = true)
  /\ State.loading (apply_effects st tr) = false.
Proof.
  intros tr waiting. subst waiting tr.
  destruct (handleUpload_layout file net) as (body & -> & Hbody).
  assert (Hshape :
    (upload_prefix file ++ upload_request file :: body
       ++ [SetLoading false])%list
    = (SetLoading true
       :: ([SetStatus ("Processing " ++ name file ++ "...");
            SetText (VStr ""); SetOriginalFile None;
            upload_request file] ++ body)
       ++ [SetLoading false])%list) by reflexivity.
  split; [eexists; reflexivity |].
  split; [reflexivity |].
  split; [reflexivity |].
  split; [reflexivity |].
  split; [reflexivity |].
  split; [reflexivity |].
  split.
  - intros k Hk. rewrite Hshape in *.
    apply (cell_held State.loading sets_loading frame_loading);
      [reflexivity | | exact Hk].
    rewrite none_app. now rewrite Hbody.
  - rewrite Hshape, app_comm_cons, apply_effects_app. reflexivity.
Qed.

Lemma upload_clears_before_request_witness :
  let tr :=
    trace (handleUpload (Some sample_pdf) (Fulfilled detail_response)) in
  let waiting := apply_effects extracted (fst (until_suspension tr)) in
  (exists rest,
      tr = (upload_prefix sample_pdf ++ upload_request sample_pdf :: rest)%list)
  /\ fst (until_suspension tr)
     = (upload_prefix sample_pdf ++ [upload_request sample_pdf])%list
  /\ State.text (apply_effects extracted (upload_prefix sample_pdf)) = VStr ""
  /\ State.originalFile (apply_effects extracted (upload_prefix sample_pdf))
     = None
  /\ State.text waiting = VStr ""
  /\ State.originalFile waiting = None
  /\ (forall k, 1 <= k < List.length tr ->
        State.loading (apply_effects extracted (firstn k tr)) = true)
  /\ State.loading (apply_effects extracted tr) = false.
Proof.
  exact (upload_clears_before_request extracted sample_pdf
           (Fulfilled detail_response)).
Defined.

(** C8: at every point of a run of [handleDownload], failed or not, the
    extraction flag, the extracted text and the remembered file are what
    they were when it started.  With a file remembered the run toggles its
    own flag: it starts by setting [isDownloading] to true, before the
    request; nothing sets the flag again until the last effect, which
    resets it; so the flag is true while the handler waits for the
    response and at every point strictly inside the run, and false at its
    end. *)
Theorem download_touches_only_its_flag st net objectURL :
  let tr := trace (handleDownload st net objectURL) in
  (forall k,
      State.loading (apply_effects st (firstn k tr)) = State.loading st
      /\ State.text (apply_effects st (firstn k tr)) = State.text st
      /\ State.originalFile (apply_effects st (firstn k tr))
         = State.originalFile st)
  /\ (forall file,
        State.originalFile st = Some file ->
        (exists body,
            tr = (SetIsDownloading true :: SetStatus "Preparing download..."
                  :: download_request file
                  :: body ++ [SetIsDownloading false])%list
            /\ none sets_isDownloading body = true)
        /\ State.isDownloading
             (apply_effects st (fst (until_suspension tr))) = true
        /\ (forall k, 1 <= k < List.length tr ->
               State.isDownloading (apply_effects st (firstn k tr)) = true)
        /\ State.isDownloading (apply_effects st tr) = false).
Proof.
  intros tr. subst tr.
  destruct (State.originalFile st) as [file |] eqn:Hf.
  2: { unfold handleDownload. rewrite Hf. cbn. split.
       - intros k. rewrite firstn_nil. cbn. auto.
       - intros file H. discriminate H. }
  destruct (handleDownload_layout st file net objectURL Hf)
    as (body & -> & Hd & Hl & Ht & Ho).
  assert (Hshape :
    (download_prefix ++ download_request file :: body
       ++ [SetIsDownloading false])%list
    = (SetIsDownloading true
       :: ([SetStatus "Preparing download..."; download_request file]
           ++ body)
       ++ [SetIsDownloading false])%list) by reflexivity.
  split.
  - intros k.
    assert (Hall : forall p,
      none p (download_prefix ++ [download_request file]) = true ->
      none p body = true -> p (SetIsDownloading false) = false ->
      none p (firstn k (download_prefix ++ download_request file :: body
                          ++ [SetIsDownloading false])%list) = true).
    { intros p H1 H2 H3. apply none_firstn.
      change (download_prefix ++ download_request file :: body
                ++ [SetIsDownloading false])%list
        with ((download_prefix ++ [download_request file])
                ++ body ++ [SetIsDownloading false])%list.
      rewrite none_app, H1, none_app, H2. cbn. now rewrite H3. }
    repeat split.
    + apply (cell_unchanged State.loading sets_loading frame_loading).
      now apply Hall.
    + apply (cell_unchanged State.text sets_text frame_text).
      now apply Hall.
    + rewrite <- Hf.
      apply (cell_unchanged State.originalFile sets_originalFile
               frame_originalFile).
      now apply Hall.
  - intros file' Hfile. injection Hfile as <-.
    split; [| split; [| split]].
    + exists body. split; [reflexivity | exact Hd].
    + reflexivity.
    + intros k Hk. rewrite Hshape in *.
      apply (cell_held State.isDownloading sets_isDownloading
               frame_isDownloading); [reflexivity | | exact Hk].
      rewrite none_app. now rewrite Hd.
    + rewrite Hshape, app_comm_cons, apply_effects_app. reflexivity.
Qed.

Lemma download_touches_only_its_flag_witness :
  let tr :=
    trace (handleDownload extracted (Fulfilled docx_response) "blob:1") in
  (forall k,
      State.loading (apply_effects extracted (firstn k tr))
      = State.loading extracted
      /\ State.text (apply_effects extracted (firstn k tr))
         = State.text extracted
      /\ State.originalFile (apply_effects extracted (firstn k tr))
         = State.originalFile extracted)
  /\ ((exists body,
          tr = (SetIsDownloading true :: SetStatus "Preparing download..."
                :: download_request sample_pdf
                :: body ++ [SetIsDownloading false])%list
          /\ none sets_isDownloading body = true)
      /\ State.isDownloading
           (apply_effects extracted (fst (until_suspension tr))) = true
      /\ (forall k, 1 <= k < List.length tr ->
             State.isDownloading (apply_effects extracted (firstn k tr))
             = true)
      /\ State.isDownloading (apply_effects extracted tr) = false).
Proof.
  split.
  - exact (proj1 (download_touches_only_its_flag extracted
                    (Fulfilled docx_response) "blob:1")).
  - exact (proj2 (download_touches_only_its_flag extracted
                    (Fulfilled docx_response) "blob:1")
             sample_pdf eq_refl).
Defined.

(** ** Errors *)

Lemma upload_fails_throws file net :
  upload_fails file net ->
  exists m pre,
    upload_try file net = (upload_request file :: pre, Throw m)
    /\ (pre = [] \/ pre = [ResJson]).
Proof.
  intros Hfail.
  destruct (upload_try_cases file net)
    as [H | (res & data & t & Hnet & Hok & _ & _ & H)]; [exact H |].
  exfalso. destruct Hfail as [[m Hm] | [(r & Hr & Hr') | [m Hm]]].
  - congruence.
  - rewrite Hnet in Hr. injection Hr as <-. congruence.
  - rewrite H in Hm. discriminate.
Qed.

Lemma download_fails_throws file net objectURL :
  download_fails file net objectURL ->
  exists m pre,
    download_try file net objectURL = (download_request file :: pre, Throw m)
    /\ (pre = [] \/ pre = [ResJson] \/ pre = [ResBlob]).
Proof.
  intros Hfail.
  destruct (download_try_cases file net objectURL)
    as [H | (res & b & Hnet & Hok & _ & H)]; [exact H |].
  exfalso. destruct Hfail as [[m Hm] | [(r & Hr & Hr') | [m Hm]]].
  - congruence.
  - rewrite Hnet in Hr. injection Hr as <-. congruence.
  - rewrite H in Hm. discriminate.
Qed.

Lemma upload_rejected_throws file m :
  upload_try file (Rejected m) = ([upload_request file], Throw m).
Proof. reflexivity. Qed.

Lemma download_rejected_throws file m objectURL :
  download_try file (Rejected m) objectURL
  = ([download_request file], Throw m).
Proof. reflexivity. Qed.

(** C6: a run of either handler that ends in an error leaves a status
    that starts with [Error:] (followed by the message of a rejected
    request, when that is the error), leaves its own busy flag false, and
    has issued exactly one request.  With the other operation idle the
    file input is enabled again, and after a failed download the button is
    enabled again whenever there is text. *)
Theorem errors_reported_and_flag_released :
  (forall st file net,
      upload_fails file net ->
      let tr := trace (handleUpload (Some file) net) in
      let st' := apply_effects st tr in
      prefix "Error:" (State.status st') = true
      /\ (forall m, net = Rejected m -> State.status st' = "Error: " ++ m)
      /\ State.loading st' = false
      /\ requests tr = 1
      /\ (State.isDownloading st = false ->
          input_disabled (render st') = false))
  /\ (forall st file net objectURL,
         State.originalFile st = Some file ->
         download_fails file net objectURL ->
         let tr := trace (handleDownload st net objectURL) in
         let st' := apply_effects st tr in
         prefix "Error:" (State.status st') = true
         /\ (forall m, net = Rejected m -> State.status st' = "Error: " ++ m)
         /\ State.isDownloading st' = false
         /\ requests tr = 1
         /\ (State.loading st = false ->
             input_disabled (render st') = false
             /\ download_enabled (render st') = negb (text_empty st))).
Proof.
  split.
  - intros st file net Hfail tr st'. subst st' tr.
    destruct (upload_fails_throws file net Hfail) as (m & pre & H & Hpre).
    rewrite (handleUpload_throw _ _ _ _ H).
    split; [| split; [| split; [| split]]].
    + destruct Hpre as [-> | ->]; reflexivity.
    + intros m' ->. rewrite upload_rejected_throws in H.
      injection H as <- <-. reflexivity.
    + destruct Hpre as [-> | ->]; reflexivity.
    + destruct Hpre as [-> | ->]; reflexivity.
    + intros Hd. destruct Hpre as [-> | ->]; cbn; exact Hd.
  - intros st file net objectURL Hf Hfail tr st'. subst st' tr.
    destruct (download_fails_throws file net objectURL Hfail)
      as (m & pre & H & Hpre).
    rewrite (handleDownload_throw _ _ _ _ _ _ Hf H).
    split; [| split; [| split; [| split]]].
    + destruct Hpre as [-> | [-> | ->]]; reflexivity.
    + intros m' ->. rewrite download_rejected_throws in H.
      injection H as <- <-. reflexivity.
    + destruct Hpre as [-> | [-> | ->]]; reflexivity.
    + destruct Hpre as [-> | [-> | ->]]; reflexivity.
    + intros Hl. split.
      * destruct Hpre as [-> | [-> | ->]]; cbn; rewrite Hl; reflexivity.
      * match goal with
        | |- download_enabled (render ?s) = _ =>
            destruct (render_download_control s) as [_ ->]
        end.
        destruct Hpre as [-> | [-> | ->]]; unfold text_empty; cbn;
          rewrite Hl; cbn; rewrite !andb_true_r; reflexivity.
Qed.

Lemma errors_reported_and_flag_released_witness :
  (let st' :=
     after State.init
       (handleUpload (Some sample_pdf) (Rejected "Failed to fetch")) in
   State.status st' = "Error: Failed to fetch"
   /\ State.loading st' = false)
  /\ (let st' :=
        after extracted
          (handleDownload extracted (Fulfilled plain_500_response) "blob:1") in
      prefix "Error:" (State.status st') = true
      /\ State.isDownloading st' = false).
Proof.
  destruct errors_reported_and_flag_released as [U D].
  split.
  - destruct (U State.init sample_pdf (Rejected "Failed to fetch"))
      as (_ & Hs & Hl & _).
    + left. exists "Failed to fetch". reflexivity.
    + split; [apply Hs; reflexivity | exact Hl].
  - destruct (D extracted sample_pdf (Fulfilled plain_500_response) "blob:1")
      as (Hp & _ & Hd & _).
    + reflexivity.
    + right. left. exists plain_500_response. split; reflexivity.
    + split; [exact Hp | exact Hd].
Defined.

(** ** The object URL of a download *)

Lemma turns_until_suspension l :
  hd [] (turns l) = fst (until_suspension l).
Proof.
  induction l as [| e r IH]; [reflexivity |].
  cbn. destruct (suspends e); [reflexivity |].
  destruct (until_suspension r) as [now later]. cbn in IH.
  destruct (turns r); cbn in *; congruence.
Qed.

(** C9: a successful download performs, in this order and nothing else:
    the two setters of its prefix, the request, the read of the blob, the
    creation of the object URL from that blob, the creation of the anchor,
    its insertion, the click that saves under [extracted_text.docx], its
    removal, the revocation of the same URL, the success status and the
    reset of the flag.  Everything from the creation of the URL on runs in
    one turn, with no [await] in between, and no URL is left unrevoked. *)
Theorem download_success_order st file net res b objectURL :
  State.originalFile st = Some file ->
  net = Fulfilled res ->
  Response.ok res = true ->
  Response.blob res = Fulfilled b ->
  let a := {| href := objectURL; download := "extracted_text.docx" |} in
  let tr := trace (handleDownload st net objectURL) in
  tr = [SetIsDownloading true; SetStatus "Preparing download...";
        download_request file; ResBlob;
        CreateObjectURL b objectURL; CreateElement "a"; AppendChild a;
        Click a; Remove a; RevokeObjectURL objectURL;
        SetStatus "Success! File downloaded."; SetIsDownloading false]
  /\ turns tr
     = [[SetIsDownloading true; SetStatus "Preparing download...";
         download_request file];
        [ResBlob];
        [CreateObjectURL b objectURL; CreateElement "a"; AppendChild a;
         Click a; Remove a; RevokeObjectURL objectURL;
         SetStatus "Success! File downloaded."; SetIsDownloading false]]
  /\ unrevoked tr = [].
Proof.
  intros Hf -> Hok Hblob a tr. subst tr a.
  unfold handleDownload, download_try, fetch. rewrite Hf. cbn.
  rewrite Hok. cbn. rewrite Hblob. cbn.
  unfold unrevoked. cbn. rewrite String.eqb_refl.
  repeat split.
Qed.

Lemma download_success_order_witness :
  let a := {| href := "blob:1"; download := "extracted_text.docx" |} in
  let tr :=
    trace (handleDownload extracted (Fulfilled docx_response) "blob:1") in
  tr = [SetIsDownloading true; SetStatus "Preparing download...";
        download_request sample_pdf; ResBlob;
        CreateObjectURL [Byte.x50; Byte.x4b] "blob:1"; CreateElement "a";
        AppendChild a; Click a; Remove a; RevokeObjectURL "blob:1";
        SetStatus "Success! File downloaded."; SetIsDownloading false]
  /\ turns tr
     = [[SetIsDownloading true; SetStatus "Preparing download...";
         download_request sample_pdf];
        [ResBlob];
        [CreateObjectURL [Byte.x50; Byte.x4b] "blob:1"; CreateElement "a";
         AppendChild a; Click a; Remove a; RevokeObjectURL "blob:1";
         SetStatus "Success! File downloaded."; SetIsDownloading false]]
  /\ unrevoked tr = [].
Proof.
  exact (download_success_order extracted sample_pdf
           (Fulfilled docx_response) docx_response [Byte.x50; Byte.x4b]
           "blob:1" eq_refl eq_refl eq_refl eq_refl).
Defined.

(** ** The text and the remembered file go together *)

Lemma linked_ext H st st' :
  State.text st' = State.text st ->
  State.originalFile st' = State.originalFile st ->
  linked H st -> linked H st'.
Proof.
  unfold linked, produced_by_upload, text_empty.
  intros -> -> Hl. exact Hl.
Qed.

Lemma linked_empty H st : text_empty st = true -> linked H st.
Proof. unfold linked. congruence. Qed.

Lemma linked_framed H l st :
  none sets_text l = true -> none sets_originalFile l = true ->
  linked H st -> linked H (apply_effects st l).
Proof.
  intros Ht Ho. apply linked_ext.
  - now apply (cell_unchanged State.text sets_text frame_text).
  - now apply (cell_unchanged State.originalFile sets_originalFile
                 frame_originalFile).
Qed.

Lemma linked_mono H H' st : incl H H' -> linked H st -> linked H' st.
Proof.
  intros Hi Hl He.
  destruct (Hl He) as (file & res & data & Hf & Hin & Hrest).
  exists file, res, data.
  split; [exact Hf | split; [apply Hi, Hin | exact Hrest]].
Qed.

Lemma keeps_linked_mono H H' turn :
  incl H H' -> keeps_linked H turn -> keeps_linked H' turn.
Proof.
  intros Hi Hk H'' st Hi'. apply Hk. eapply incl_tran; eassumption.
Qed.

Lemma safe_mono H H' k : incl H H' -> safe H k -> safe H' k.
Proof.
  intros Hi. induction 1 as [| k Hk _ IH]; [constructor |].
  apply safe_turn; [| exact IH].
  eapply keeps_linked_mono; eassumption.
Qed.

Lemma safe_inv H k :
  safe H k ->
  keeps_linked H (fst (until_suspension k))
  /\ safe H (snd (until_suspension k)).
Proof.
  intros [| k' Hk Hrest]; [| now split].
  split; [intros H' st _ Hst; exact Hst | constructor].
Qed.

Lemma until_suspension_app k :
  (fst (until_suspension k) ++ snd (until_suspension k))%list = k.
Proof.
  induction k as [| e r IH]; [reflexivity |].
  cbn. destruct (suspends e); [reflexivity |].
  destruct (until_suspension r) as [now later]. cbn in *. now rewrite IH.
Qed.

Lemma keeps_linked_framed H turn :
  none sets_text turn = true -> none sets_originalFile turn = true ->
  keeps_linked H turn.
Proof. intros Ht Ho H' st _. now apply linked_framed. Qed.

Lemma keeps_linked_cons H e turn :
  keeps_linked H [e] -> keeps_linked H turn -> keeps_linked H (e :: turn).
Proof.
  intros He Ht H' st Hi Hst.
  change (apply_effects st (e :: turn))
    with (apply_effects (apply_effects st [e]) turn).
  apply Ht; [exact Hi |]. now apply He.
Qed.

(** Effects that set neither the text nor the file are safe. *)
Lemma safe_framed H k :
  none sets_text k = true -> none sets_originalFile k = true -> safe H k.
Proof.
  induction k as [| e r IH]; intros Ht Ho; [constructor |].
  cbn in Ht, Ho.
  apply andb_true_iff in Ht as [Hte Htr].
  apply andb_true_iff in Ho as [Hoe Hor].
  specialize (IH Htr Hor). destruct (safe_inv _ _ IH) as [IHnow IHlater].
  assert (He : keeps_linked H [e])
    by (apply keeps_linked_framed; cbn; now rewrite ?Hte, ?Hoe).
  apply safe_turn; cbn; destruct (suspends e).
  - exact He.
  - destruct (until_suspension r) as [now later]. cbn in *.
    now apply keeps_linked_cons.
  - exact IH.
  - destruct (until_suspension r) as [now later]. exact IHlater.
Qed.

(** The turns of an upload are safe once the upload is in the history. *)
Lemma safe_upload H e net :
  incl (match e with Some file => [(file, net)] | None => [] end) H ->
  safe H (trace (handleUpload e net)).
Proof.
  destruct e as [file |]; intros Hin; [| constructor].
  assert (Hclear : forall rest,
    safe H rest ->
    safe H (upload_prefix file ++ upload_request file :: rest)%list).
  { intros rest Hrest. apply safe_turn; [| exact Hrest].
    intros H' st _ _. apply linked_empty. reflexivity. }
  destruct (upload_try_cases file net)
    as [(m & pre & Ht & Hpre)
       | (res & data & t & Hnet & Hok & Hjson & Hget & Ht)].
  - rewrite (handleUpload_throw _ _ _ _ Ht). cbn [app].
    apply Hclear.
    apply safe_framed; destruct Hpre as [-> | ->]; reflexivity.
  - rewrite (handleUpload_normal _ _ _ Ht). cbn [app].
    apply Hclear.
    apply safe_turn; cbn.
    + apply keeps_linked_framed; reflexivity.
    + apply safe_turn; cbn; [| constructor].
      intros H' st Hi _ _.
      exists file, res, data. cbn.
      repeat split; try assumption.
      apply Hi, Hin. subst net. now left.
Qed.

(** The turns of a download are safe: it sets neither cell. *)
Lemma safe_download H st net objectURL :
  safe H (trace (handleDownload st net objectURL)).
Proof.
  destruct (State.originalFile st) as [file |] eqn:Hf.
  - destruct (handleDownload_layout st file net objectURL Hf)
      as (body & -> & _ & _ & Ht & Ho).
    change (download_prefix ++ download_request file :: body
              ++ [SetIsDownloading false])%list
      with ((download_prefix ++ [download_request file])
              ++ body ++ [SetIsDownloading false])%list.
    apply safe_framed;
      rewrite none_app, (none_app _ body), ?Ht, ?Ho; reflexivity.
  - unfold handleDownload. rewrite Hf. constructor.
Qed.

Lemma invariant_initial : invariant initial.
Proof.
  split; [apply linked_empty; reflexivity | constructor].
Qed.

Lemma invariant_start c m started :
  invariant c ->
  safe (started ++ uploads c)%list (trace m) ->
  invariant (start c m started).
Proof.
  intros [Hl Hs] Hm. unfold start.
  destruct (safe_inv _ _ Hm) as [Hnow Hlater].
  destruct (until_suspension (trace m)) as [now later]. cbn in *.
  assert (Hi : incl (uploads c) (started ++ uploads c)%list)
    by apply incl_appr, incl_refl.
  split; cbn.
  - apply Hnow; [apply incl_refl |]. eapply linked_mono; eassumption.
  - constructor; [exact Hlater |].
    eapply Forall_impl; [| exact Hs].
    intros k. now apply safe_mono.
Qed.

Lemma invariant_step c c' : invariant c -> step c c' -> invariant c'.
Proof.
  intros Hinv Hstep. destruct Hstep as [c e net | c net url | c b k a Hk].
  - apply invariant_start; [exact Hinv |].
    apply safe_upload. apply incl_appl, incl_refl.
  - apply invariant_start; [exact Hinv |]. apply safe_download.
  - destruct Hinv as [Hl Hs]. rewrite Hk in Hs.
    apply Forall_app in Hs as [Hb Hka].
    apply Forall_cons_iff in Hka as [Hsk Ha].
    destruct (safe_inv _ _ Hsk) as [Hnow Hlater].
    split; cbn.
    + apply Hnow; [apply incl_refl | exact Hl].
    + apply Forall_app. split; [exact Hb |].
      constructor; [exact Hlater | exact Ha].
Qed.

Lemma reachable_invariant c : reachable c -> invariant c.
Proof.
  induction 1 as [| c c' _ IH Hstep];
    [apply invariant_initial | eapply invariant_step; eassumption].
Qed.

(** [handleUpload] remembers a file only on the path that also stores the
    text of that file's response. *)
Lemma upload_remembers_file_only_with_text e net file :
  In (SetOriginalFile (Some file)) (trace (handleUpload e net)) ->
  e = Some file
  /\ exists res data t,
       net = Fulfilled res
       /\ Response.ok res = true
       /\ Response.json res = Fulfilled data
       /\ get data "text" = ret t
       /\ In (SetText t) (trace (handleUpload e net)).
Proof.
  destruct e as [f |]; [| intros []].
  destruct (upload_try_cases f net)
    as [(m & pre & Ht & Hpre)
       | (res & data & t & Hnet & Hok & Hjson & Hget & Ht)].
  - rewrite (handleUpload_throw _ _ _ _ Ht).
    destruct Hpre as [-> | ->]; cbn; intros Hin;
      repeat (destruct Hin as [Hin | Hin]; [discriminate |]);
      destruct Hin.
  - rewrite (handleUpload_normal _ _ _ Ht). cbn. intros Hin.
    repeat (destruct Hin as [Hin | Hin];
            [first [discriminate | injection Hin as <-] |]);
      [| destruct Hin].
    split; [reflexivity |].
    exists res, data, t. repeat split; auto 10.
Qed.

(** C10: in every reachable state, text that is not empty comes with the
    file whose upload produced it: a file is remembered, an upload of that
    very file was started, its response was 2xx and the text is the [text]
    field of its JSON body.  Hence, whenever the download button is in the
    page, a file is remembered and [handleDownload] does not return at its
    guard: it goes on to re-send that file. *)
Theorem text_comes_with_its_file c :
  reachable c ->
  let st := ui c in
  (text_empty st = false ->
   exists file res data,
     State.originalFile st = Some file
     /\ In (file, Fulfilled res) (uploads c)
     /\ Response.ok res = true
     /\ Response.json res = Fulfilled data
     /\ get data "text" = ret (State.text st))
  /\ (download_present (render st) = true ->
      exists file,
        State.originalFile st = Some file
        /\ forall net objectURL,
             exists rest,
               trace (handleDownload st net objectURL)
               = (download_prefix ++ download_request file :: rest)%list).
Proof.
  intros Hreach st. subst st.
  destruct (reachable_invariant c Hreach) as [Hlinked _].
  split; [exact Hlinked |].
  intros Hpresent.
  destruct (render_download_control (ui c)) as [Hp _].
  rewrite Hp in Hpresent. apply andb_true_iff in Hpresent as [Hne _].
  apply negb_true_iff in Hne.
  destruct (Hlinked Hne) as (file & _ & _ & Hf & _).
  exists file. split; [exact Hf |].
  intros net objectURL.
  destruct (handleDownload_layout (ui c) file net objectURL Hf)
    as (body & Htr & _).
  eexists. exact Htr.
Qed.

Lemma text_comes_with_its_file_witness :
  (exists file res data,
     State.originalFile (ui extracted_config) = Some file
     /\ In (file, Fulfilled res) (uploads extracted_config)
     /\ Response.ok res = true
     /\ Response.json res = Fulfilled data
     /\ get data "text" = ret (State.text (ui extracted_config)))
  /\ (exists file,
        State.originalFile (ui extracted_config) = Some file
        /\ forall net objectURL,
             exists rest,
               trace (handleDownload (ui extracted_config) net objectURL)
               = (download_prefix ++ download_request file :: rest)%list).
Proof.
  split.
  - apply (proj1 (text_comes_with_its_file extracted_config
                    reachable_extracted_config)).
    reflexivity.
  - apply (proj2 (text_comes_with_its_file extracted_config
                    reachable_extracted_config)).
    reflexivity.
Defined.

(** * Further properties of the component *)

(** ** What a run sends, and how it ends *)

(** X1: a run of [handleUpload] on a file issues exactly one request, the
    POST of that file under the form field [file] to the text endpoint,
    and a run with no file selected performs no effect at all; a run of
    [handleDownload] issues exactly one request, the POST of the
    remembered file to the document endpoint, and none when no file is
    remembered. *)
Theorem each_run_sends_its_file_once :
  (forall e net,
      requests_of (trace (handleUpload e net))
      = match e with Some file => [upload_request file] | None => [] end)
  /\ (forall net, trace (handleUpload None net) = [])
  /\ (forall st net objectURL,
         requests_of (trace (handleDownload st net objectURL))
         = match State.originalFile st with
           | Some file => [download_request file]
           | None => []
           end).
Proof.
  split; [| split].
  - intros [file |] net; [| reflexivity].
    destruct (upload_try_cases file net)
      as [(m & pre & H & Hpre) | (res & data & t & _ & _ & _ & _ & H)].
    + rewrite (handleUpload_throw _ _ _ _ H).
      destruct Hpre as [-> | ->]; reflexivity.
    + rewrite (handleUpload_normal _ _ _ H). reflexivity.
  - reflexivity.
  - intros st net objectURL.
    destruct (State.originalFile st) as [file |] eqn:Hf.
    + destruct (download_try_cases file net objectURL)
        as [(m & pre & H & Hpre) | (res & b & _ & _ & _ & H)].
      * rewrite (handleDownload_throw _ _ _ _ _ _ Hf H).
        destruct Hpre as [-> | [-> | ->]]; reflexivity.
      * rewrite (handleDownload_normal _ _ _ _ _ Hf H). reflexivity.
    + unfold handleDownload. rewrite Hf. reflexivity.
Qed.

(** X2: neither handler lets an exception escape: whatever the request
    settles to and whatever the body holds, the handler completes
    normally, so the promise it returns is never rejected. *)
Theorem handlers_never_reject :
  (forall e net, completion (handleUpload e net) = Normal tt)
  /\ (forall st net objectURL,
         completion (handleDownload st net objectURL) = Normal tt).
Proof.
  split.
  - intros [file |] net; [| reflexivity].
    destruct (upload_try_cases file net)
      as [(m & pre & H & _) | (res & data & t & _ & _ & _ & _ & H)].
    + now rewrite (handleUpload_throw _ _ _ _ H).
    + now rewrite (handleUpload_normal _ _ _ H).
  - intros st net objectURL.
    destruct (State.originalFile st) as [file |] eqn:Hf.
    + destruct (download_try_cases file net objectURL)
        as [(m & pre & H & _) | (res & b & _ & _ & _ & H)].
      * now rewrite (handleDownload_throw _ _ _ _ _ _ Hf H).
      * now rewrite (handleDownload_normal _ _ _ _ _ Hf H).
    + unfold handleDownload. now rewrite Hf.
Qed.

(** X3: the colour of the status paragraph tells how the run ended.
    After a run of [handleUpload] on a file the paragraph is blue with the
    success message when the [try] block completed, and red with [Error:]
    and the message of the exception when it threw; likewise after a run
    of [handleDownload] with a remembered file. *)
Theorem status_colour_tells_outcome :
  (forall st file net,
      status_slot (render (after st (handleUpload (Some file) net)))
      = match completion (upload_try file net) with
        | Normal _ => Paragraph blue "Success! Text extracted."
        | Throw m => Paragraph red ("Error: " ++ m)
        end)
  /\ (forall st file net objectURL,
         State.originalFile st = Some file ->
         status_slot (render (after st (handleDownload st net objectURL)))
         = match completion (download_try file net objectURL) with
           | Normal _ => Paragraph blue "Success! File downloaded."
           | Throw m => Paragraph red ("Error: " ++ m)
           end).
Proof.
  split.
  - intros st file net.
    destruct (upload_try_cases file net)
      as [(m & pre & H & Hpre) | (res & data & t & _ & _ & _ & _ & H)].
    + unfold after. rewrite (handleUpload_throw _ _ _ _ H), H.
      destruct Hpre as [-> | ->]; reflexivity.
    + unfold after. rewrite (handleUpload_normal _ _ _ H), H. reflexivity.
  - intros st file net objectURL Hf.
    destruct (download_try_cases file net objectURL)
      as [(m & pre & H & Hpre) | (res & b & _ & _ & _ & H)].
    + unfold after. rewrite (handleDownload_throw _ _ _ _ _ _ Hf H), H.
      destruct Hpre as [-> | [-> | ->]]; reflexivity.
    + unfold after. rewrite (handleDownload_normal _ _ _ _ _ Hf H), H.
      reflexivity.
Qed.

Lemma status_colour_tells_outcome_witness :
  status_slot
    (render (after State.init
               (handleUpload (Some sample_pdf) (Rejected "Failed to fetch"))))
  = Paragraph red "Error: Failed to fetch"
  /\ status_slot
       (render (after extracted
                  (handleDownload extracted (Fulfilled docx_response)
                     "blob:1")))
     = Paragraph blue "Success! File downloaded.".
Proof.
  split.
  - exact (proj1 status_colour_tells_outcome State.init sample_pdf
             (Rejected "Failed to fetch")).
  - exact (proj2 status_colour_tells_outcome extracted sample_pdf
             (Fulfilled docx_response) "blob:1" eq_refl).
Defined.

(** X4: an upload that ends in an error loses the result that was on the
    page: the text stays empty and no file is remembered, so neither the
    textarea nor the download button is rendered, whatever was there
    before the upload. *)
Theorem failed_upload_discards_earlier_result st file net :
  upload_fails file net ->
  let st' := after st (handleUpload (Some file) net) in
  State.text st' = VStr ""
  /\ State.originalFile st' = None
  /\ download_slot (render st') = Nothing
  /\ textarea_slot (render st') = Nothing.
Proof.
  intros Hfail st'. subst st'. unfold after.
  destruct (upload_fails_throws file net Hfail) as (m & pre & H & Hpre).
  rewrite (handleUpload_throw _ _ _ _ H).
  destruct Hpre as [-> | ->]; repeat split.
Qed.

Lemma failed_upload_discards_earlier_result_witness :
  State.text extracted = VStr hello_world
  /\ let st' :=
       after extracted
         (handleUpload (Some sample_pdf) (Fulfilled plain_500_response)) in
     State.text st' = VStr ""
     /\ State.originalFile st' = None
     /\ download_slot (render st') = Nothing
     /\ textarea_slot (render st') = Nothing.
Proof.
  split; [reflexivity |].
  apply (failed_upload_discards_earlier_result extracted sample_pdf
           (Fulfilled plain_500_response)).
  right. left. exists plain_500_response. split; reflexivity.
Defined.

(** X5: a 2xx response whose body has no [text], or a falsy one, still
    counts as a success: the status is the success message and the file is
    remembered, but the stored text is that falsy value, so the page shows
    neither a textarea nor a download button. *)
Theorem success_without_text_shows_nothing st file net res data t :
  net = Fulfilled res ->
  Response.ok res = true ->
  Response.json res = Fulfilled data ->
  get data "text" = ret t ->
  truthy t = false ->
  let st' := after st (handleUpload (Some file) net) in
  State.status st' = "Success! Text extracted."
  /\ State.text st' = t
  /\ State.originalFile st' = Some file
  /\ download_present (render st') = false
  /\ textarea_slot (render st') = render_falsy t.
Proof.
  intros -> Hok Hjson Hget Ht st'. subst st'.
  unfold after, handleUpload, upload_try, fetch.
  cbn. rewrite Hok, Hjson. cbn. rewrite Hget. cbn.
  unfold download_present, render. cbn. rewrite Ht.
  repeat split. destruct t; cbn in *; congruence.
Qed.

Lemma success_without_text_shows_nothing_witness :
  let st' :=
    after State.init
      (handleUpload (Some sample_pdf) (Fulfilled empty_object_200)) in
  State.status st' = "Success! Text extracted."
  /\ State.text st' = VUndefined
  /\ State.originalFile st' = Some sample_pdf
  /\ download_present (render st') = false
  /\ textarea_slot (render st') = render_falsy VUndefined.
Proof.
  exact (success_without_text_shows_nothing State.init sample_pdf
           (Fulfilled empty_object_200) empty_object_200 (VObj [])
           VUndefined eq_refl eq_refl eq_refl eq_refl eq_refl).
Defined.

Lemma error_message_truthy d :
  truthy d = true ->
  error_message d
  = match to_string d with Some s => s | None => to_primitive_error end.
Proof. destruct d; cbn; congruence. Qed.

(** X6: what the status says after a non-2xx response whose body parsed
    to a value with a readable [detail] (any JSON value but [null]).  On
    both paths it is [Error:] followed by the generic message with the
    status code when [detail] is absent or falsy, by the string form of
    [detail] when [detail] is truthy and converts to a string (a list of
    plain objects gives [[object Object]]), and by the message of the
    TypeError of the conversion when it does not (an object with an own
    [toString]). *)
Theorem error_status_from_detail st file net res data d objectURL :
  net = Fulfilled res ->
  Response.ok res = false ->
  Response.json res = Fulfilled data ->
  get data "detail" = ret d ->
  let message :=
    if truthy d then
      match to_string d with
      | Some s => s
      | None => to_primitive_error
      end
    else "Server error: " ++ show (Response.status res) in
  State.status (after st (handleUpload (Some file) net)) = "Error: " ++ message
  /\ (State.originalFile st = Some file ->
      State.status (after st (handleDownload st net objectURL))
      = "Error: " ++ message).
Proof.
  intros -> Hok Hjson Hget message. subst message.
  assert (Hm : error_message
                 (js_or d (VStr ("Server error: " ++ show (Response.status res))))
               = if truthy d then
                   match to_string d with
                   | Some s => s
                   | None => to_primitive_error
                   end
                 else "Server error: " ++ show (Response.status res)).
  { unfold js_or. destruct (truthy d) eqn:Ht; [| reflexivity].
    now apply error_message_truthy. }
  split.
  - unfold after, handleUpload, upload_try, fetch, throw_new_Error.
    cbn. rewrite Hok, Hjson. cbn. rewrite Hget. cbn. cbn in Hm.
    now rewrite Hm.
  - intros Hf. unfold after, handleDownload, download_try, fetch,
      throw_new_Error.
    rewrite Hf. cbn. rewrite Hok, Hjson. cbn. rewrite Hget. cbn. cbn in Hm.
    now rewrite Hm.
Qed.

Lemma error_status_from_detail_witness :
  (State.status
     (after extracted
        (handleUpload (Some sample_pdf) (Fulfilled validation_422)))
   = "Error: [object Object]"
   /\ (State.originalFile extracted = Some sample_pdf ->
       State.status
         (after extracted
            (handleDownload extracted (Fulfilled validation_422) "blob:1"))
       = "Error: [object Object]"))
  /\ (State.status
        (after extracted
           (handleUpload (Some sample_pdf) (Fulfilled empty_object_404)))
      = "Error: Server error: 404"
      /\ (State.originalFile extracted = Some sample_pdf ->
          State.status
            (after extracted
               (handleDownload extracted (Fulfilled empty_object_404)
                  "blob:1"))
          = "Error: Server error: 404"))
  /\ (State.status
        (after extracted
           (handleUpload (Some sample_pdf) (Fulfilled own_toString_400)))
      = "Error: Cannot convert object to primitive value"
      /\ (State.originalFile extracted = Some sample_pdf ->
          State.status
            (after extracted
               (handleDownload extracted (Fulfilled own_toString_400)
                  "blob:1"))
          = "Error: Cannot convert object to primitive value")).
Proof.
  split; [| split].
  - exact (error_status_from_detail extracted sample_pdf
             (Fulfilled validation_422) validation_422
             (VObj [("detail", VArr [VObj [("msg", VStr "field required")]])])
             (VArr [VObj [("msg", VStr "field required")]]) "blob:1"
             eq_refl eq_refl eq_refl eq_refl).
  - exact (error_status_from_detail extracted sample_pdf
             (Fulfilled empty_object_404) empty_object_404 (VObj [])
             VUndefined "blob:1" eq_refl eq_refl eq_refl eq_refl).
  - exact (error_status_from_detail extracted sample_pdf
             (Fulfilled own_toString_400) own_toString_400
             (VObj [("detail", own_toString_detail)])
             own_toString_detail "blob:1" eq_refl eq_refl eq_refl eq_refl).
Defined.

(** X7: no run of [handleDownload] leaves an object URL behind, and none
    is alive across an [await]: in every turn of every run, failed or not,
    each URL created is revoked before the turn ends.  A URL is created
    only in a run whose [try] block completes. *)
Theorem no_object_url_outlives_its_turn st net objectURL :
  let tr := trace (handleDownload st net objectURL) in
  unrevoked tr = []
  /\ Forall (fun turn => unrevoked turn = []) (turns tr)
  /\ (forall b u, In (CreateObjectURL b u) tr ->
        exists file,
          State.originalFile st = Some file
          /\ completion (download_try file net objectURL) = Normal tt).
Proof.
  intros tr. subst tr.
  destruct (State.originalFile st) as [file |] eqn:Hf.
  2: { unfold handleDownload. rewrite Hf. cbn.
       split; [reflexivity | split; [repeat constructor | intros b u []]]. }
  destruct (download_try_cases file net objectURL)
    as [(m & pre & H & Hpre) | (res & b & _ & _ & _ & H)].
  - rewrite (handleDownload_throw _ _ _ _ _ _ Hf H).
    destruct Hpre as [-> | [-> | ->]]; cbn;
      (split; [reflexivity | split; [repeat constructor |]]);
      intros b u Hin;
      repeat (destruct Hin as [Hin | Hin]; [discriminate |]);
      destruct Hin.
  - rewrite (handleDownload_normal _ _ _ _ _ Hf H). cbn.
    unfold unrevoked. cbn. rewrite String.eqb_refl.
    split; [reflexivity | split].
    + repeat (apply Forall_cons;
              [unfold unrevoked; cbn; rewrite ?String.eqb_refl; reflexivity |]).
      apply Forall_nil.
    + intros b' u _. exists file. rewrite H. split; reflexivity.
Qed.

Lemma no_object_url_outlives_its_turn_witness :
  let tr :=
    trace (handleDownload extracted (Fulfilled docx_response) "blob:1") in
  unrevoked tr = []
  /\ Forall (fun turn => unrevoked turn = []) (turns tr)
  /\ (forall b u, In (CreateObjectURL b u) tr ->
        exists file,
          State.originalFile extracted = Some file
          /\ completion
               (download_try file (Fulfilled docx_response) "blob:1")
             = Normal tt).
Proof.
  exact (no_object_url_outlives_its_turn extracted (Fulfilled docx_response)
           "blob:1").
Defined.

(** ** What the page shows while a request is in flight *)

(** X8: while an upload waits for its response the page is fully
    determined, whatever it showed before: the file input is disabled, the
    status paragraph is blue and names the file being processed, and there
    is neither a download button nor a textarea. *)
Theorem view_while_uploading st file net :
  render
    (apply_effects st
       (fst (until_suspension (trace (handleUpload (Some file) net)))))
  = {| input_disabled := true;
       status_slot := Paragraph blue ("Processing " ++ name file ++ "...");
       download_slot := Nothing;
       textarea_slot := Nothing |}.
Proof.
  destruct (handleUpload_layout file net) as (body & -> & _).
  reflexivity.
Qed.

(** X9: while a download started from the enabled button waits for its
    response, the file input is disabled, the status paragraph is blue
    with the preparing message, the button is still there but disabled and
    relabelled, and the textarea keeps showing the text. *)
Theorem view_while_downloading st net objectURL :
  download_enabled (render st) = true ->
  State.originalFile st <> None ->
  render
    (apply_effects st
       (fst (until_suspension (trace (handleDownload st net objectURL)))))
  = {| input_disabled := true;
       status_slot := Paragraph blue "Preparing download...";
       download_slot := Button true "Downloading...";
       textarea_slot := Textarea (State.text st) |}.
Proof.
  intros Hen Hfile.
  destruct (State.originalFile st) as [file |] eqn:Hf; [| now contradiction Hfile].
  destruct (handleDownload_layout st file net objectURL Hf) as (body & -> & _).
  destruct (render_download_control st) as [_ He]. rewrite He in Hen.
  apply andb_true_iff in Hen as [Hen _].
  apply andb_true_iff in Hen as [Ht Hl].
  apply negb_true_iff in Hl. unfold text_empty in Ht.
  rewrite negb_involutive in Ht.
  unfold render. cbn. rewrite Ht, Hl. cbn.
  reflexivity.
Qed.

Lemma view_while_downloading_witness :
  render
    (apply_effects extracted
       (fst (until_suspension
               (trace (handleDownload extracted (Fulfilled docx_response)
                         "blob:1")))))
  = {| input_disabled := true;
       status_slot := Paragraph blue "Preparing download...";
       download_slot := Button true "Downloading...";
       textarea_slot := Textarea (State.text extracted) |}.
Proof.
  apply (view_while_downloading extracted (Fulfilled docx_response) "blob:1");
    [reflexivity | discriminate].
Defined.

(** ** Upload, then download *)

(** X10: after an upload that extracted a non-empty text, with no
    download in flight, the download button is enabled; a click on it
    re-sends the very file that was uploaded; and when that request
    succeeds the status is the download success message, the text and the
    remembered file are still there, and the button is enabled again. *)
Theorem upload_then_download st file net res data (S : string)
    net2 res2 b objectURL :
  net = Fulfilled res ->
  Response.ok res = true ->
  Response.json res = Fulfilled data ->
  field "text" data = Some (VStr S) ->
  S <> "" ->
  State.isDownloading st = false ->
  net2 = Fulfilled res2 ->
  Response.ok res2 = true ->
  Response.blob res2 = Fulfilled b ->
  let st1 := after st (handleUpload (Some file) net) in
  let st2 := after st1 (handleDownload st1 net2 objectURL) in
  download_enabled (render st1) = true
  /\ requests_of (trace (handleDownload st1 net2 objectURL))
     = [download_request file]
  /\ State.status st2 = "Success! File downloaded."
  /\ State.text st2 = VStr S
  /\ State.originalFile st2 = Some file
  /\ download_enabled (render st2) = true.
Proof.
  intros -> Hok Hjson Hfield HS Hd -> Hok2 Hblob st1 st2.
  assert (H1 : st1 = {| State.loading := false;
                        State.isDownloading := false;
                        State.status := "Success! Text extracted.";
                        State.text := VStr S;
                        State.originalFile := Some file |}).
  { subst st1. unfold after, handleUpload, upload_try, fetch.
    cbn. rewrite Hok, Hjson. cbn. rewrite (field_get _ _ _ Hfield). cbn.
    now rewrite Hd. }
  assert (H2 : st2 = {| State.loading := false;
                        State.isDownloading := false;
                        State.status := "Success! File downloaded.";
                        State.text := VStr S;
                        State.originalFile := Some file |}).
  { subst st2. rewrite H1. unfold after, handleDownload, download_try, fetch.
    cbn. rewrite Hok2. cbn. rewrite Hblob. reflexivity. }
  pose proof (truthy_nonempty S HS) as Ht. cbn in Ht.
  rewrite H2. clear H2 st2. rewrite H1. clear H1 st1.
  repeat split.
  - unfold download_enabled, render. cbn. now rewrite Ht.
  - unfold handleDownload, download_try, fetch.
    cbn. rewrite Hok2. cbn. rewrite Hblob. reflexivity.
  - unfold download_enabled, render. cbn. now rewrite Ht.
Qed.

Lemma upload_then_download_witness :
  let st1 :=
    after State.init
      (handleUpload (Some sample_pdf) (Fulfilled text_response)) in
  let st2 :=
    after st1 (handleDownload st1 (Fulfilled docx_response) "blob:1") in
  download_enabled (render st1) = true
  /\ requests_of (trace (handleDownload st1 (Fulfilled docx_response) "blob:1"))
     = [download_request sample_pdf]
  /\ State.status st2 = "Success! File downloaded."
  /\ State.text st2 = VStr hello_world
  /\ State.originalFile st2 = Some sample_pdf
  /\ download_enabled (render st2) = true.
Proof.
  apply (upload_then_download State.init sample_pdf (Fulfilled text_response)
           text_response (VObj [("text", VStr hello_world)]) hello_world
           (Fulfilled docx_response) docx_response [Byte.x50; Byte.x4b]
           "blob:1");
    try reflexivity.
  discriminate.
Defined.

(** ** One request at a time *)

Lemma ui_step_step c c' : ui_step c c' -> step c c'.
Proof. intros [c0 e net _ | c0 net url _ | c0 b k a H]; now constructor. Qed.

Lemma ui_reachable_reachable c : ui_reachable c -> reachable c.
Proof.
  induction 1 as [| c c' _ IH Hs]; [constructor |].
  eapply reachable_step; [exact IH | now apply ui_step_step].
Qed.

(** Resuming a handler that ends with a non-suspending [last]: either it
    runs to its end, or it stops inside its body. *)
Lemma until_suspension_last body last :
  suspends last = false ->
  until_suspension (body ++ [last]) = ((body ++ [last])%list, [])
  \/ exists b1 b2,
       body = (b1 ++ b2)%list
       /\ until_suspension (body ++ [last]) = (b1, (b2 ++ [last])%list).
Proof.
  intros Hlast. induction body as [| e r IH]; cbn.
  - left. now rewrite Hlast.
  - destruct (suspends e).
    + right. exists [e], r. split; reflexivity.
    + destruct IH as [-> | (b1 & b2 & -> & ->)].
      * now left.
      * right. exists (e :: b1), b2. split; reflexivity.
Qed.

Lemma unfinished_last (body : list Effect) last :
  unfinished (body ++ [last]) = true.
Proof. destruct body; reflexivity. Qed.

Section Winding.
  (** A busy flag [flag], set by the effects [sets] only and reset by
      [last]; the other flag [flag'], set by the effects [other] only. *)
  Context (flag flag' : State.t -> bool) (sets other : Effect -> bool)
          (last : Effect).
  Hypothesis frame : forall st e,
      sets e = false -> flag (apply_effect st e) = flag st.
  Hypothesis frame' : forall st e,
      other e = false -> flag' (apply_effect st e) = flag' st.
  Hypothesis last_resets : forall st, flag (apply_effect st last) = false.
  Hypothesis last_runs_on : suspends last = false.

Lemma winds_down_resume k st :
  winds_down sets other last k ->
  flag' (apply_effects st (fst (until_suspension k))) = flag' st
  /\ ((snd (until_suspension k) = []
       /\ flag (apply_effects st (fst (until_suspension k))) = false)
      \/ (unfinished (snd (until_suspension k)) = true
          /\ winds_down sets other last (snd (until_suspension k))
          /\ flag (apply_effects st (fst (until_suspension k))) = flag st)).
Proof.
  intros (body & -> & Hbody & Hother).
  destruct (until_suspension_last body last last_runs_on)
    as [-> | (b1 & b2 & -> & ->)]; cbn [fst snd].
  - split.
    + now apply (cell_unchanged flag' other frame').
    + left. split; [reflexivity |].
      rewrite apply_effects_app. cbn. apply last_resets.
  - rewrite <- app_assoc, none_app in Hother.
    apply andb_true_iff in Hother as [Ho1 Ho2].
    rewrite none_app in Hbody.
    apply andb_true_iff in Hbody as [Hb1 Hb2].
    split.
    + now apply (cell_unchanged flag' other frame').
    + right. split; [apply unfinished_last | split].
      * exists b2. repeat split; assumption.
      * now apply (cell_unchanged flag sets frame).
Qed.
End Winding.

(** The run of [handleUpload], laid out with what its body leaves alone. *)
Lemma handleUpload_layout_flags file net :
  exists body,
    trace (handleUpload (Some file) net)
    = (upload_prefix file ++ upload_request file :: body
       ++ [SetLoading false])%list
    /\ none sets_loading body = true
    /\ none sets_isDownloading body = true.
Proof.
  destruct (upload_try_cases file net)
    as [(m & pre & H & Hpre) | (res & data & t & _ & _ & _ & _ & H)].
  - rewrite (handleUpload_throw _ _ _ _ H).
    exists (pre ++ [ConsoleError "Upload failed:" m;
                    SetStatus ("Error: " ++ m)])%list.
    split.
    + cbn. rewrite <- app_assoc. reflexivity.
    + destruct Hpre as [-> | ->]; split; reflexivity.
  - rewrite (handleUpload_normal _ _ _ H).
    eexists. split; [reflexivity | split; reflexivity].
Qed.

Lemma in_flight_start c m started :
  in_flight (start c m started)
  = (if unfinished (snd (until_suspension (trace m)))
     then snd (until_suspension (trace m)) :: in_flight c
     else in_flight c).
Proof.
  unfold start, in_flight.
  destruct (until_suspension (trace m)) as [now later]. reflexivity.
Qed.

Lemma ui_start c m started :
  ui (start c m started)
  = apply_effects (ui c) (fst (until_suspension (trace m))).
Proof.
  unfold start. destruct (until_suspension (trace m)) as [now later].
  reflexivity.
Qed.

Lemma exclusive_idle c :
  exclusive c ->
  State.loading (ui c) = false ->
  State.isDownloading (ui c) = false ->
  in_flight c = [].
Proof.
  unfold exclusive. intros Hex Hl Hd.
  destruct (in_flight c) as [| k [| k' rest]]; [reflexivity | | contradiction].
  destruct Hex as [(_ & H & _) | (_ & H & _)]; congruence.
Qed.

Lemma exclusive_initial : exclusive initial.
Proof. split; reflexivity. Qed.

Lemma exclusive_select c e net :
  exclusive c ->
  input_disabled (render (ui c)) = false ->
  exclusive (start c (handleUpload e net)
               (match e with Some file => [(file, net)] | None => [] end)).
Proof.
  intros Hex Hin. cbn in Hin. apply orb_false_iff in Hin as [Hl Hd].
  pose proof (exclusive_idle c Hex Hl Hd) as Hidle.
  unfold exclusive. rewrite in_flight_start, ui_start, Hidle.
  destruct e as [file |]; [| cbn; auto].
  destruct (handleUpload_layout_flags file net) as (body & -> & Hb & Hb').
  change (until_suspension
            (upload_prefix file ++ upload_request file :: body
               ++ [SetLoading false]))
    with ((upload_prefix file ++ [upload_request file])%list,
          (body ++ [SetLoading false])%list).
  cbn [fst snd]. rewrite unfinished_last.
  left. split; [| split; [reflexivity | exact Hd]].
  exists body. split; [reflexivity | split; [exact Hb |]].
  rewrite none_app, Hb'. reflexivity.
Qed.

Lemma exclusive_click c net objectURL :
  exclusive c ->
  download_enabled (render (ui c)) = true ->
  exclusive (start c (handleDownload (ui c) net objectURL) []).
Proof.
  intros Hex Hen.
  destruct (render_download_control (ui c)) as [_ He]. rewrite He in Hen.
  apply andb_true_iff in Hen as [Hen Hd]. apply negb_true_iff in Hd.
  apply andb_true_iff in Hen as [_ Hl]. apply negb_true_iff in Hl.
  pose proof (exclusive_idle c Hex Hl Hd) as Hidle.
  unfold exclusive. rewrite in_flight_start, ui_start, Hidle.
  destruct (State.originalFile (ui c)) as [file |] eqn:Hf.
  2: { unfold handleDownload. rewrite Hf. cbn. auto. }
  destruct (handleDownload_layout (ui c) file net objectURL Hf)
    as (body & -> & Hb & Hb' & _).
  change (until_suspension
            (download_prefix ++ download_request file :: body
               ++ [SetIsDownloading false]))
    with ((download_prefix ++ [download_request file])%list,
          (body ++ [SetIsDownloading false])%list).
  cbn [fst snd]. rewrite unfinished_last.
  right. split; [| split; [reflexivity | exact Hl]].
  exists body. split; [reflexivity | split; [exact Hb |]].
  rewrite none_app, Hb'. reflexivity.
Qed.

Lemma exclusive_resume c before k after :
  exclusive c ->
  suspended c = (before ++ k :: after)%list ->
  exclusive {| ui := apply_effects (ui c) (fst (until_suspension k));
               suspended :=
                 (before ++ snd (until_suspension k) :: after)%list;
               uploads := uploads c |}.
Proof.
  intros Hex Hs. unfold exclusive, in_flight in *. cbn [ui suspended].
  rewrite Hs in Hex. rewrite filter_app in *. cbn [filter] in *.
  destruct k as [| e k]; [exact Hex |].
  cbn [unfinished] in Hex.
  set (k0 := e :: k) in *.
  destruct (filter unfinished before) as [| x xs].
  2: { cbn in Hex. destruct xs; cbn in Hex; contradiction. }
  destruct (filter unfinished after) as [| y ys]; [| contradiction].
  cbn [app] in *.
  destruct Hex as [(Hw & Hl & Hd) | (Hw & Hd & Hl)].
  - destruct (winds_down_resume State.loading State.isDownloading
                sets_loading sets_isDownloading (SetLoading false)
                frame_loading frame_isDownloading
                (fun _ => eq_refl) eq_refl k0 (ui c) Hw)
      as (Hother & [(-> & Hflag) | (Hun & Hw' & Hflag)]).
    + cbn [unfinished]. split; congruence.
    + rewrite Hun. left. split; [exact Hw' | split; congruence].
  - destruct (winds_down_resume State.isDownloading State.loading
                sets_isDownloading sets_loading (SetIsDownloading false)
                frame_isDownloading frame_loading
                (fun _ => eq_refl) eq_refl k0 (ui c) Hw)
      as (Hother & [(-> & Hflag) | (Hun & Hw' & Hflag)]).
    + cbn [unfinished]. split; congruence.
    + rewrite Hun. right. split; [exact Hw' | split; congruence].
Qed.

Lemma ui_reachable_exclusive c : ui_reachable c -> exclusive c.
Proof.
  induction 1 as [| c c' _ IH Hstep]; [apply exclusive_initial |].
  destruct Hstep as [c e net Hin | c net url Hen | c b k a Hs].
  - now apply exclusive_select.
  - now apply exclusive_click.
  - now apply exclusive_resume.
Qed.

Lemma ui_reachable_uploading_config : ui_reachable uploading_config.
Proof.
  apply (ui_reachable_step initial); [constructor |].
  apply (ui_select initial (Some sample_pdf) (Fulfilled text_response)).
  reflexivity.
Qed.

(** X11: with the [disabled] attributes and the conditional rendering
    honoured, the two operations exclude each other although each has its
    own flag: in every state the page can reach at most one request is in
    flight, the two busy flags are never set together, and the file input
    is enabled exactly when nothing is in flight. *)
Theorem one_request_at_a_time c :
  ui_reachable c ->
  List.length (in_flight c) <= 1
  /\ State.loading (ui c) && State.isDownloading (ui c) = false
  /\ (in_flight c = [] <-> input_disabled (render (ui c)) = false).
Proof.
  intros Hreach. pose proof (ui_reachable_exclusive c Hreach) as Hex.
  unfold exclusive in Hex. cbn [render input_disabled].
  destruct (in_flight c) as [| k [| k' rest]]; [| | contradiction].
  - destruct Hex as [-> ->]. cbn. repeat split; auto.
  - destruct Hex as [(_ & -> & ->) | (_ & -> & ->)]; cbn;
      (split; [lia | split; [reflexivity |]]);
      split; discriminate.
Qed.

Lemma one_request_at_a_time_witness :
  List.length (in_flight uploading_config) <= 1
  /\ State.loading (ui uploading_config)
     && State.isDownloading (ui uploading_config) = false
  /\ (in_flight uploading_config = []
      <-> input_disabled (render (ui uploading_config)) = false).
Proof.
  exact (one_request_at_a_time uploading_config ui_reachable_uploading_config).
Defined.

(** ** The earlier versions *)

(** X12: in the first version a failed upload is never cleaned up.  When
    the request is rejected, or the body is not JSON, the handler ends
    with that exception uncaught, having only set [loading]: the flag
    stays true, the text is what it was, and the page keeps showing the
    processing line. *)
Theorem text_only_failure_leaves_page_loading st file net m :
  net = Rejected m
  \/ (exists res, net = Fulfilled res /\ Response.json res = Rejected m) ->
  let run := TextOnly.handleUpload (Some file) net in
  let st' := TextOnly.after st run in
  completion run = Throw m
  /\ TextOnly.loading st' = true
  /\ TextOnly.text st' = TextOnly.text st
  /\ TextOnly.processing_slot (TextOnly.render st')
     = Paragraph "text-blue-600" "Processing PDF...".
Proof.
  intros [-> | (res & -> & Hjson)] run st'; subst st' run.
  - repeat split.
  - unfold TextOnly.after, TextOnly.handleUpload, fetch.
    cbn. rewrite Hjson. repeat split.
Qed.

Lemma text_only_failure_leaves_page_loading_witness :
  let run :=
    TextOnly.handleUpload (Some sample_pdf) (Rejected "Failed to fetch") in
  let st' := TextOnly.after text_only_shown run in
  completion run = Throw "Failed to fetch"
  /\ TextOnly.loading st' = true
  /\ TextOnly.text st' = TextOnly.text text_only_shown
  /\ TextOnly.processing_slot (TextOnly.render st')
     = Paragraph "text-blue-600" "Processing PDF...".
Proof.
  apply (text_only_failure_leaves_page_loading text_only_shown sample_pdf
           (Rejected "Failed to fetch") "Failed to fetch").
  left. reflexivity.
Defined.

(** X13: the first version never looks at the status code.  Whatever the
    status, a response whose body parsed replaces the text by the [text]
    field of the body ([undefined] when there is none) and resets
    [loading], with no error shown; until the response arrives the page
    keeps the text of the previous upload. *)
Theorem text_only_ignores_status st file res data t :
  Response.json res = Fulfilled data ->
  get data "text" = ret t ->
  let run := TextOnly.handleUpload (Some file) (Fulfilled res) in
  completion run = Normal tt
  /\ TextOnly.after st run
     = {| TextOnly.text := t; TextOnly.loading := false |}
  /\ TextOnly.text
       (TextOnly.apply_effects st (fst (until_suspension (trace run))))
     = TextOnly.text st.
Proof.
  intros Hjson Hget run. subst run.
  unfold TextOnly.after, TextOnly.handleUpload, fetch.
  cbn. rewrite Hjson. cbn. rewrite Hget. repeat split.
Qed.

Lemma text_only_ignores_status_witness :
  let run :=
    TextOnly.handleUpload (Some sample_pdf) (Fulfilled detail_response) in
  completion run = Normal tt
  /\ TextOnly.after text_only_shown run
     = {| TextOnly.text := VUndefined; TextOnly.loading := false |}
  /\ TextOnly.text
       (TextOnly.apply_effects text_only_shown
          (fst (until_suspension (trace run))))
     = TextOnly.text text_only_shown.
Proof.
  exact (text_only_ignores_status text_only_shown sample_pdf detail_response
           (VObj [("detail", VStr "Unsupported file type")]) VUndefined
           eq_refl eq_refl).
Defined.

(** The [try] block of the second version either throws, having issued
    the request and at most read the body once, or saves the blob. *)
Lemma docx_only_try_cases (file : File) (net : Settled Response.t)
    (objectURL : string) :
  (exists m pre,
      DocxOnly.upload_try file net objectURL
      = (extract_request file :: pre, Throw m)
      /\ (pre = [] \/ pre = [ResJson] \/ pre = [ResBlob]))
  \/ (exists res b,
         net = Fulfilled res
         /\ Response.ok res = true
         /\ Response.blob res = Fulfilled b
         /\ DocxOnly.upload_try file net objectURL =
              (let a := {| href := objectURL;
                           download := "extracted_text.docx" |} in
               [extract_request file; ResBlob; CreateObjectURL b objectURL;
                CreateElement "a"; AppendChild a; Click a; Remove a;
                RevokeObjectURL objectURL;
                SetStatus "Success! Your file has been downloaded."],
               Normal tt)).
Proof.
  unfold DocxOnly.upload_try, fetch, extract_request.
  destruct net as [res | m]; cbn.
  2: { left. exists m, []. split; [reflexivity | now left]. }
  destruct (Response.ok res) eqn:Hok; cbn.
  - destruct (Response.blob res) as [b | m] eqn:Hblob; cbn.
    + right. exists res, b. repeat split; auto.
    + left. exists m, [ResBlob]. split; [reflexivity | auto].
  - left.
    destruct (Response.json res) as [data | m0]; cbn.
    + destruct (get_cases data "detail") as [[m Hg] | [d Hg]];
        rewrite Hg; cbn; eexists _, [ResJson]; (split; [reflexivity | auto]).
    + eexists _, [ResJson]. split; [reflexivity | auto].
Qed.

(** X14: the second version reports a non-2xx response whose body is not
    JSON with the generic message and the status code, and releases the
    file input: its handler tests [res.ok] first and catches the
    rejection of [res.json()]. *)
Theorem docx_only_unparseable_error_body st file res m objectURL :
  Response.ok res = false ->
  Response.json res = Rejected m ->
  let st' :=
    DocxOnly.after st
      (DocxOnly.handleUpload (Some file) (Fulfilled res) objectURL) in
  DocxOnly.status st' = "Error: Server error: " ++ show (Response.status res)
  /\ DocxOnly.loading st' = false
  /\ DocxOnly.input_disabled (DocxOnly.render st') = false.
Proof.
  intros Hok Hjson st'. subst st'.
  unfold DocxOnly.after, DocxOnly.handleUpload, DocxOnly.upload_try, fetch.
  cbn. rewrite Hok, Hjson. repeat split.
Qed.

Lemma docx_only_unparseable_error_body_witness :
  let st' :=
    DocxOnly.after DocxOnly.init
      (DocxOnly.handleUpload (Some sample_pdf) (Fulfilled plain_500_response)
         "blob:1") in
  DocxOnly.status st' = "Error: Server error: 500"
  /\ DocxOnly.loading st' = false
  /\ DocxOnly.input_disabled (DocxOnly.render st') = false.
Proof.
  exact (docx_only_unparseable_error_body DocxOnly.init sample_pdf
           plain_500_response "Unexpected token I in JSON at position 0"
           "blob:1" eq_refl eq_refl).
Defined.

(** X15: every run of the second version's handler on a file issues
    exactly one request, ends with every exception caught and [loading]
    reset, leaves no object URL unrevoked, and leaves as status either
    the success message or [Error:] with the message of the exception,
    according to how its [try] block completed. *)
Theorem docx_only_run_is_contained st file net objectURL :
  let run := DocxOnly.handleUpload (Some file) net objectURL in
  let st' := DocxOnly.after st run in
  requests_of (trace run) = [extract_request file]
  /\ completion run = Normal tt
  /\ DocxOnly.loading st' = false
  /\ unrevoked (trace run) = []
  /\ DocxOnly.status st'
     = match completion (DocxOnly.upload_try file net objectURL) with
       | Normal _ => "Success! Your file has been downloaded."
       | Throw m => "Error: " ++ m
       end.
Proof.
  intros run st'. subst st' run.
  unfold DocxOnly.after, DocxOnly.handleUpload.
  destruct (docx_only_try_cases file net objectURL)
    as [(m & pre & -> & Hpre) | (res & b & _ & _ & _ & ->)].
  - destruct Hpre as [-> | [-> | ->]]; repeat split.
  - cbn. unfold unrevoked. cbn. rewrite String.eqb_refl. repeat split.
Qed.

(** ** A body that is [null] *)

(** X16: a text response whose body parses to [null] is never a success,
    whatever its status code: reading a property of [null] throws inside
    the [try] block, so the run ends with an [Error:] status, an empty
    text, no remembered file and [loading] reset. *)
Theorem null_body_is_an_error st file net res :
  net = Fulfilled res ->
  Response.json res = Fulfilled VNull ->
  let st' := after st (handleUpload (Some file) net) in
  upload_fails file net
  /\ prefix "Error:" (State.status st') = true
  /\ State.text st' = VStr ""
  /\ State.originalFile st' = None
  /\ State.loading st' = false.
Proof.
  intros -> Hjson st'. subst st'.
  assert (Ht : exists m,
    upload_try file (Fulfilled res) = ([upload_request file; ResJson], Throw m)).
  { unfold upload_try, fetch. cbn. rewrite Hjson. cbn.
    destruct (Response.ok res); cbn; eexists; reflexivity. }
  destruct Ht as [m Ht].
  split.
  - right. right. exists m. now rewrite Ht.
  - unfold after. rewrite (handleUpload_throw _ _ _ _ Ht). repeat split.
Qed.

Lemma null_body_is_an_error_witness :
  let st' :=
    after extracted (handleUpload (Some sample_pdf) (Fulfilled null_200)) in
  upload_fails sample_pdf (Fulfilled null_200)
  /\ prefix "Error:" (State.status st') = true
  /\ State.text st' = VStr ""
  /\ State.originalFile st' = None
  /\ State.loading st' = false.
Proof.
  exact (null_body_is_an_error extracted sample_pdf (Fulfilled null_200)
           null_200 eq_refl eq_refl).
Defined.
